(** * AgentGuard: the rule-matching engine and the scan orchestrator

    A shallow embedding of [agentguard/scanner/core.py] and of the severity
    filter of [agentguard/cli/main.py].

    Python values are modelled as follows.
    - A [str] is a [string]; where the code looks at characters the text is
      taken as the list of its characters ([list ascii]), each character being
      one code point below 256.
    - [re.compile(pattern, re.IGNORECASE | re.MULTILINE)] yields a compiled
      pattern; the embedding holds the compiled form ([regex]), which
      [Compile.compile] builds from the pattern text of the source, and
      matches it as the backtracking engine does.
    - An exception is a value of [exn]; code that may raise returns
      [result].  Only the [Exception] hierarchy is modelled.
    - The file system is a snapshot ([FileSystem]); the times of a scan are
      read from a [Clock]; what [print] writes is collected in a list of
      lines.  [Scanner] and [Command] are the code where the status of every
      path can be read; [Stat] is the code where [os.stat] may fail, and
      agrees with them where it does not. *)

From Stdlib Require Import List Ascii String Arith Bool Lia ZArith NArith Sorted.
From Stdlib Require Import DecimalString.
Import ListNotations.

Open Scope string_scope.
Open Scope list_scope.
Open Scope nat_scope.

(** ** Characters *)

Module Text.

Definition ord (c : ascii) : nat := nat_of_ascii c.

Definition between (lo hi n : nat) : bool := (lo <=? n) && (n <=? hi).

(** [str.isspace] on one character, which is also what [\s] matches in a
    [str] pattern: TAB..CR, FS..US, SPACE, NEL and NBSP. *)
Definition isspace (c : ascii) : bool :=
  let n := ord c in
  between 9 13 n || between 28 32 n || (n =? 133) || (n =? 160).

(** Simple lower-case mapping of a code point below 256, the folding that
    [re.IGNORECASE] applies to the text: A-Z and the upper-case letters of
    Latin-1 (all of 0xC0..0xDE but the multiplication sign). *)
Definition tolower (c : ascii) : ascii :=
  let n := ord c in
  if between 65 90 n || (between 192 222 n && negb (n =? 215))
  then ascii_of_nat (n + 32)
  else c.

Definition lower (s : list ascii) : list ascii := map tolower s.






(** Two texts that differ only in the case of their letters, character for
    character: each character has the lower-case form of the one in its
    place. *)
Definition case_variant (s s' : list ascii) : Prop :=
  Forall2 (fun a b => tolower a = tolower b) s s'.

Definition newline : ascii := ascii_of_nat 10.
Definition dquote : ascii := ascii_of_nat 34.
Definition squote : ascii := ascii_of_nat 39.

(** [s.lstrip()], [s.rstrip()] and [s.strip()] with no argument. *)
Fixpoint lstrip (s : list ascii) : list ascii :=
  match s with
  | c :: s' => if isspace c then lstrip s' else s
  | [] => []
  end.

Definition rstrip (s : list ascii) : list ascii := rev (lstrip (rev s)).

Definition strip (s : list ascii) : list ascii := lstrip (rstrip s).

(** [s.split("\n")]: the pieces between the newlines; never empty. *)
Fixpoint split_lines (s : list ascii) : list (list ascii) :=
  match s with
  | [] => [[]]
  | c :: s' =>
      if Ascii.eqb c newline then [] :: split_lines s'
      else match split_lines s' with
           | l :: ls => (c :: l) :: ls
           | [] => [[c]]
           end
  end.

(** [str.isprintable] on one character below 256. *)
Definition isprintable (c : ascii) : bool :=
  let n := ord c in
  between 32 126 n || (between 161 255 n && negb (n =? 173)).

Definition backslash : ascii := ascii_of_nat 92.

Definition hex_digit (n : nat) : ascii :=
  nth n (list_ascii_of_string "0123456789abcdef") (ascii_of_nat 48).

(** One character of [repr(s)], inside the quotes [q]. *)
Definition repr_char (q c : ascii) : list ascii :=
  let n := ord c in
  if Ascii.eqb c backslash then [backslash; backslash]
  else if Ascii.eqb c q then [backslash; q]
  else if n =? 9 then [backslash; ascii_of_nat 116]
  else if n =? 10 then [backslash; ascii_of_nat 110]
  else if n =? 13 then [backslash; ascii_of_nat 114]
  else if isprintable c then [c]
  else [backslash; ascii_of_nat 120; hex_digit (n / 16); hex_digit (n mod 16)].

(** [repr(s)] of a [str]: in double quotes when [s] holds a single quote
    and no double quote, in single quotes otherwise. *)
Definition repr (s : list ascii) : list ascii :=
  let q := if existsb (Ascii.eqb squote) s && negb (existsb (Ascii.eqb dquote) s)
           then dquote else squote in
  q :: flat_map (repr_char q) s ++ [q].

(** [s.find(sub)]: the lowest index at which [sub] occurs in [s]. *)
Fixpoint starts_with (sub s : list ascii) : bool :=
  match sub, s with
  | [], _ => true
  | a :: sub', b :: s' => Ascii.eqb a b && starts_with sub' s'
  | _ :: _, [] => false
  end.

Fixpoint find_from (sub s : list ascii) (pos : nat) : option nat :=
  if starts_with sub s then Some pos
  else match s with
       | [] => None
       | _ :: s' => find_from sub s' (S pos)
       end.

Definition find (sub s : list ascii) : option nat := find_from sub s 0.

End Text.

Import Text.

Abbreviation chars := list_ascii_of_string.
Abbreviation text := string_of_list_ascii.

(** ** Compiled patterns *)

Module Re.

(** One member of a bracketed set. *)
Inductive citem : Type :=
| CChar (c : ascii)
| CRange (lo hi : ascii).

(** What matches exactly one character. *)
Inductive atom : Type :=
| ALit (c : ascii)
| ADot
| ASpace
| AClass (items : list citem).

(** The patterns of the rule registry: sequence, alternation, groups and
    greedy repetition of a one-character item ([x*], [x?], [x{n,}]). *)
Inductive regex : Type :=
| REps
| RAtom (a : atom)
| RRep (a : atom) (mn : nat) (mx : option nat)
| RSeq (r1 r2 : regex)
| RAlt (r1 r2 : regex)
| RGroup (r : regex).

(** A set member under IGNORECASE: the folded character is looked up
    among the folded members. *)
Definition citem_match (i : citem) (ch : ascii) : bool :=
  match i with
  | CChar c => Ascii.eqb (tolower ch) (tolower c)
  | CRange lo hi =>
      existsb (fun n => Ascii.eqb (tolower ch) (tolower (ascii_of_nat n)))
              (seq (ord lo) (S (ord hi) - ord lo))
  end.

Definition atom_match (a : atom) (ch : ascii) : bool :=
  match a with
  | ALit c => Ascii.eqb (tolower ch) (tolower c)
  | ADot => negb (Ascii.eqb ch newline)
  | ASpace => isspace ch
  | AClass items => existsb (fun i => citem_match i ch) items
  end.

Definition can_take (mx : option nat) : bool :=
  match mx with
  | Some 0 => false
  | _ => true
  end.

Definition dec (mx : option nat) : option nat :=
  match mx with
  | Some n => Some (pred n)
  | None => None
  end.

(** Greedy repetition: the lengths it can consume, longest first. *)
Fixpoint rep (a : atom) (mn : nat) (mx : option nat) (s : list ascii)
  : list nat :=
  let stop := if mn =? 0 then [0] else [] in
  match s with
  | c :: s' =>
      if atom_match a c && can_take mx
      then map S (rep a (pred mn) (dec mx) s') ++ stop
      else stop
  | [] => stop
  end.

(** The backtracking matcher as a list of successes: the lengths of the
    prefixes of [s] that [r] matches, in the order in which the engine
    tries them (left alternative first, longer repetition first). *)
Fixpoint ends (r : regex) (s : list ascii) : list nat :=
  match r with
  | REps => [0]
  | RAtom a =>
      match s with
      | c :: _ => if atom_match a c then [1] else []
      | [] => []
      end
  | RRep a mn mx => rep a mn mx s
  | RSeq r1 r2 =>
      flat_map (fun n => map (Nat.add n) (ends r2 (skipn n s))) (ends r1 s)
  | RAlt r1 r2 => ends r1 s ++ ends r2 s
  | RGroup r1 => ends r1 s
  end.

(** One match attempt at the head of [s]: the first success; with
    [must_advance] an empty match is rejected and the engine backtracks. *)
Definition match_at (r : regex) (s : list ascii) (must_advance : bool)
  : option nat :=
  List.find (fun n => negb (must_advance && (n =? 0))) (ends r s).

(** What [finditer] reports with its scanner standing at the head of [s]:
    the lengths of the matches that start here, and how many characters
    after this one the last of them covers.  After an empty match the
    scanner searches again from the same place with [must_advance]. *)
Definition matches_here (r : regex) (s : list ascii) : list nat * nat :=
  match match_at r s false with
  | None => ([], 0)
  | Some (S n) => ([S n], n)
  | Some 0 =>
      match match_at r s true with
      | Some (S n) => ([0; S n], n)
      | _ => ([0], 0)
      end
  end.

(** [pattern.finditer(line)]: the spans (start, end) of the successive
    non-overlapping matches, left to right.  [pos] is the offset of the head
    of [s] in the line, [skip] the number of characters still covered by the
    previous match. *)
Fixpoint scan (r : regex) (s : list ascii) (pos skip : nat)
  : list (nat * nat) :=
  match skip, s with
  | S k, _ :: s' => scan r s' (S pos) k
  | S _, [] => []
  | 0, _ =>
      let (lens, k) := matches_here r s in
      map (fun n => (pos, pos + n)) lens ++
      match s with
      | [] => []
      | _ :: s' => scan r s' (S pos) k
      end
  end.

Definition finditer (r : regex) (line : list ascii) : list (nat * nat) :=
  scan r line 0 0.

(** Pattern construction. *)
Definition lits (s : string) : list regex :=
  map (fun c => RAtom (ALit c)) (chars s).

Fixpoint seqs (rs : list regex) : regex :=
  match rs with
  | [] => REps
  | [r] => r
  | r :: rs' => RSeq r (seqs rs')
  end.

Fixpoint alts (rs : list regex) : regex :=
  match rs with
  | [] => REps
  | [r] => r
  | r :: rs' => RAlt r (alts rs')
  end.

Definition lit (s : string) : regex := seqs (lits s).

Definition star (a : atom) : regex := RRep a 0 None.
Definition opt (a : atom) : regex := RRep a 0 (Some 1).
Definition at_least (n : nat) (a : atom) : regex := RRep a n None.






(** The pattern matches at offset [off] of [line], over [len] characters. *)
Definition matches_at (r : regex) (line : list ascii) (off len : nat) : Prop :=
  off <= List.length line /\ In len (ends r (skipn off line)).


(** The four outcomes of [matches_here]. *)
Inductive here_shape (r : regex) (s : list ascii) : list nat * nat -> Prop :=
| HereNone : here_shape r s ([], 0)
| HereOne (n : nat) : In (S n) (ends r s) -> here_shape r s ([S n], n)
| HereEmpty : In 0 (ends r s) -> here_shape r s ([0], 0)
| HereBoth (n : nat) :
    In 0 (ends r s) -> In (S n) (ends r s) -> here_shape r s ([0; S n], n).

(** ** [re.compile] on the pattern syntax of the registry

    Literals, [.], [\s], escaped punctuation, bracketed sets with ranges,
    groups, alternation, and the greedy quantifiers on a one-character item.
    Anything else is refused ([None]): what [re] itself refuses, and what
    [re] accepts outside this syntax (other escapes such as [\d], anchors,
    negated sets, quantified groups, lazy quantifiers, and the extensions
    that open with a question mark, scoped flags among them).  A pattern
    that compiles here compiles in [re] to the same matcher. *)

Module Compile.

Definition ch (n : nat) : ascii := ascii_of_nat n.

Definition is_char (n : nat) (c : ascii) : bool := Ascii.eqb c (ch n).

Definition is_digit (c : ascii) : bool := between 48 57 (ord c).

Definition is_alnum (c : ascii) : bool :=
  is_digit c || between 65 90 (ord c) || between 97 122 (ord c).

(** The characters with a meaning of their own outside a set:
    [$ ( ) * + . ? [ \ ] ^ { | }]. *)
Definition is_special (c : ascii) : bool :=
  existsb (Nat.eqb (ord c)) [36; 40; 41; 42; 43; 46; 63; 91; 92; 93; 94; 123; 124; 125].

Fixpoint read_nat (s : list ascii) (acc : nat) : nat * list ascii :=
  match s with
  | c :: s' =>
      if is_digit c then read_nat s' (10 * acc + (ord c - 48)) else (acc, s)
  | [] => (acc, [])
  end.

(** The repetition numbers that [re] accepts lie below [MAXREPEAT]. *)
Definition MAXREPEAT : N := 4294967295%N.

Definition below_MAXREPEAT (n : nat) : bool := N.ltb (N.of_nat n) MAXREPEAT.

Definition small_enough (q : nat * option nat) : bool :=
  below_MAXREPEAT (fst q)
  && match snd q with
     | Some m => below_MAXREPEAT m
     | None => true
     end.

(** A quantifier must not be followed by [?] or [+] (lazy, possessive), and
    its numbers must be small enough. *)
Definition quantified (q : nat * option nat) (s : list ascii)
  : option (option (nat * option nat) * list ascii) :=
  if small_enough q then
    match s with
    | c :: _ => if is_char 63 c || is_char 43 c then None else Some (Some q, s)
    | [] => Some (Some q, s)
    end
  else None.

Definition parse_braces (s : list ascii)
  : option (option (nat * option nat) * list ascii) :=
  match s with
  | d :: _ =>
      if is_digit d then
        let (n, s1) := read_nat s 0 in
        match s1 with
        | c1 :: s2 =>
            if is_char 125 c1 then quantified (n, Some n) s2
            else if is_char 44 c1 then
              match s2 with
              | c2 :: s3 =>
                  if is_char 125 c2 then quantified (n, None) s3
                  else if is_digit c2 then
                    let (m, s4) := read_nat s2 0 in
                    match s4 with
                    | c3 :: s5 =>
                        if is_char 125 c3 && (n <=? m)
                        then quantified (n, Some m) s5 else None
                    | [] => None
                    end
                  else None
              | [] => None
              end
            else None
        | [] => None
        end
      else None
  | [] => None
  end.

(** The quantifier at the head of [s], if any. *)
Definition parse_quant (s : list ascii)
  : option (option (nat * option nat) * list ascii) :=
  match s with
  | c :: s' =>
      if is_char 42 c then quantified (0, None) s'
      else if is_char 63 c then quantified (0, Some 1) s'
      else if is_char 43 c then quantified (1, None) s'
      else if is_char 123 c then parse_braces s'
      else Some (None, s)
  | [] => Some (None, s)
  end.

Definition with_quant (a : atom) (s : list ascii)
  : option (regex * list ascii) :=
  match parse_quant s with
  | Some (Some (mn, mx), s') => Some (RRep a mn mx, s')
  | Some (None, s') => Some (RAtom a, s')
  | None => None
  end.

(** One member of a set: a character, or an escaped punctuation sign. *)
Definition parse_member (s : list ascii) : option (ascii * list ascii) :=
  match s with
  | c :: s1 =>
      if is_char 92 c then
        match s1 with
        | e :: s2 => if is_alnum e then None else Some (e, s2)
        | [] => None
        end
      else Some (c, s1)
  | [] => None
  end.

(** The members of a set, up to the closing bracket.  A range whose end
    lies before its start is refused, as [re] refuses it. *)
Fixpoint parse_set (fuel : nat) (s : list ascii) (acc : list citem)
  : option (list citem * list ascii) :=
  match fuel with
  | 0 => None
  | S fuel' =>
      match s with
      | [] => None
      | c :: s1 =>
          if is_char 93 c then
            match acc with
            | [] => None
            | _ => Some (rev acc, s1)
            end
          else
            match parse_member s with
            | None => None
            | Some (lo, s2) =>
                match s2 with
                | d :: hi :: s3 =>
                    if is_char 45 d && negb (is_char 93 hi) then
                      if is_char 92 hi || (ord hi <? ord lo) then None
                      else parse_set fuel' s3 (CRange lo hi :: acc)
                    else parse_set fuel' s2 (CChar lo :: acc)
                | _ => parse_set fuel' s2 (CChar lo :: acc)
                end
            end
      end
  end.

Fixpoint parse_alt (fuel : nat) (s : list ascii)
  : option (regex * list ascii) :=
  match fuel with
  | 0 => None
  | S fuel' =>
      match parse_items fuel' s with
      | Some (rs, c :: s') =>
          if is_char 124 c then
            match parse_alt fuel' s' with
            | Some (r', s'') => Some (RAlt (seqs rs) r', s'')
            | None => None
            end
          else Some (seqs rs, c :: s')
      | Some (rs, []) => Some (seqs rs, [])
      | None => None
      end
  end

with parse_items (fuel : nat) (s : list ascii)
  : option (list regex * list ascii) :=
  match fuel with
  | 0 => None
  | S fuel' =>
      match s with
      | [] => Some ([], [])
      | c :: _ =>
          if is_char 124 c || is_char 41 c then Some ([], s)
          else
            match parse_item fuel' s with
            | Some (r, s') =>
                match parse_items fuel' s' with
                | Some (rs, s'') => Some (r :: rs, s'')
                | None => None
                end
            | None => None
            end
      end
  end

with parse_item (fuel : nat) (s : list ascii)
  : option (regex * list ascii) :=
  match fuel with
  | 0 => None
  | S fuel' =>
      match s with
      | [] => None
      | c :: s1 =>
          if is_char 40 c then
            match s1 with
            | q :: _ =>
                if is_char 63 q then None
                else
                  match parse_alt fuel' s1 with
                  | Some (r, c' :: s2) =>
                      if is_char 41 c' then
                        match parse_quant s2 with
                        | Some (None, _) => Some (RGroup r, s2)
                        | _ => None
                        end
                      else None
                  | _ => None
                  end
            | [] => None
            end
          else if is_char 91 c then
            match s1 with
            | n :: _ =>
                if is_char 94 n then None
                else
                  match parse_set fuel' s1 [] with
                  | Some (items, s2) => with_quant (AClass items) s2
                  | None => None
                  end
            | [] => None
            end
          else if is_char 46 c then with_quant ADot s1
          else if is_char 92 c then
            match s1 with
            | e :: s2 =>
                if is_char 115 e then with_quant ASpace s2
                else if is_alnum e then None
                else with_quant (ALit e) s2
            | [] => None
            end
          else if is_special c then None
          else with_quant (ALit c) s1
      end
  end.

(** [re.compile(pattern, re.IGNORECASE | re.MULTILINE)]. *)
Definition compile (pattern : string) : option regex :=
  match parse_alt (4 * String.length pattern + 4) (chars pattern) with
  | Some (r, []) => Some r
  | _ => None
  end.

End Compile.

End Re.

Import Re.

(** ** Exceptions *)

Inductive exn_class : Type :=
| FileNotFoundError
| NotImplementedError
| PermissionError
| IsADirectoryError
| UnicodeDecodeError
| KeyError
| IndexError
| ValueError
| OtherError (name : string).

(** An exception: its class and [str(e)]. *)
Record exn : Type := Raise { exn_cls : exn_class; exn_msg : string }.

Inductive result (A : Type) : Type :=
| Ok (a : A)
| Err (e : exn).

Arguments Ok {A} a.
Arguments Err {A} e.

Definition bind {A B : Type} (m : result A) (f : A -> result B) : result B :=
  match m with
  | Ok a => f a
  | Err e => Err e
  end.

Notation "x <- m ;; k" := (bind m (fun x => k))
  (at level 61, m at next level, right associativity).

(** ** Data model *)

Inductive Severity : Type := CRITICAL | HIGH | MEDIUM | LOW | INFO.

Definition Severity_value (s : Severity) : string :=
  match s with
  | CRITICAL => "critical"
  | HIGH => "high"
  | MEDIUM => "medium"
  | LOW => "low"
  | INFO => "info"
  end.

(** The total order of the severities, as a rank: 0 for the most severe. *)
Definition severity_rank (s : Severity) : nat :=
  match s with
  | CRITICAL => 0
  | HIGH => 1
  | MEDIUM => 2
  | LOW => 3
  | INFO => 4
  end.

Inductive RuleCategory : Type :=
| PROMPT_INJECTION | SECRETS | PERMISSIONS | FILE_ACCESS | NETWORK | MEMORY.

Definition RuleCategory_value (c : RuleCategory) : string :=
  match c with
  | PROMPT_INJECTION => "prompt_injection"
  | SECRETS => "secrets"
  | PERMISSIONS => "permissions"
  | FILE_ACCESS => "file_access"
  | NETWORK => "network"
  | MEMORY => "memory"
  end.

Module Finding.
Record t : Type := Build {
  rule_id : string;
  rule_name : string;
  category : RuleCategory;
  severity : Severity;
  message : string;
  file_path : string;
  line_number : nat;
  column : nat;
  snippet : string;
  remediation : string;
  references : list string
}.
End Finding.

Module ScanResult.
Record t : Type := Build {
  file_path : string;
  findings : list Finding.t;
  scanned_at : string;
  duration_ms : Z
}.
End ScanResult.

(** The attributes that [Rule.__init__] stores. *)
Module Rule.
Record t : Type := Build {
  rule_id : string;
  name : string;
  description : string;
  category : RuleCategory;
  severity : Severity;
  remediation : string;
  references : list string
}.
End Rule.

(** ** [str.format] of a message template *)

Definition lbrace : ascii := ascii_of_nat 123.
Definition rbrace : ascii := ascii_of_nat 125.

Definition list_ascii_eqb (a b : list ascii) : bool :=
  String.eqb (text a) (text b).

(** The number that a field of decimal digits denotes. *)
Fixpoint digits_value (f : list ascii) (acc : N) : N :=
  match f with
  | [] => acc
  | c :: f' => digits_value f' (10 * acc + N.of_nat (ord c - 48))%N
  end.

(** The largest index: [sys.maxsize] on a 64-bit platform. *)
Definition PY_SSIZE_T_MAX : N := 9223372036854775807%N.

(** What looking up a replacement field other than [category] raises: a
    number, or nothing, indexes the positional arguments, of which there are
    none; a name is a keyword that was not given. *)
Definition unknown_field (f : list ascii) : exn :=
  match f with
  | [] =>
      Raise IndexError
            "Replacement index 0 out of range for positional args tuple"
  | _ :: _ =>
      if forallb (fun c => between 48 57 (ord c)) f then
        let n := digits_value f 0%N in
        if (PY_SSIZE_T_MAX <? n)%N
        then Raise ValueError "Too many decimal digits in format string"
        else Raise IndexError
                   ("Replacement index " ++ NilZero.string_of_uint (N.to_uint n)
                    ++ " out of range for positional args tuple")
      else Raise KeyError (text (repr f))
  end.

(** The fields that [format_from] reads as [str.format] does: those without
    a conversion ([!]), a format specification ([:]), an attribute ([.]) or
    an index ([[]).  [in_field] tells whether a field is open. *)
Fixpoint plain_fields_from (t : list ascii) (in_field : bool) : bool :=
  match t with
  | [] => true
  | c :: t' =>
      if in_field then
        if Ascii.eqb c (ascii_of_nat 125) then plain_fields_from t' false
        else negb (existsb (Ascii.eqb c) (map ascii_of_nat [33; 58; 46; 91]))
             && plain_fields_from t' true
      else if Ascii.eqb c (ascii_of_nat 123) then
        match t' with
        | c' :: t'' =>
            if Ascii.eqb c' (ascii_of_nat 123) then plain_fields_from t'' false
            else plain_fields_from t' true
        | [] => true
        end
      else if Ascii.eqb c (ascii_of_nat 125) then
        match t' with
        | c' :: t'' =>
            if Ascii.eqb c' (ascii_of_nat 125) then plain_fields_from t'' false
            else true
        | [] => true
        end
      else plain_fields_from t' false
  end.

Definition plain_fields (template : string) : bool :=
  plain_fields_from (chars template) false.

(** [template.format(category=value)].  [field] is the replacement field
    being read, if one is open.  Doubled braces are literal braces; the field
    [{category}] is replaced by [value]; a field of any other name is looked
    up in vain and a lone brace is malformed.  This is [str.format] on the
    templates of [plain_fields]; a field that carries a conversion, a format
    specification, an attribute or an index is outside this fragment, and
    nothing is stated of such a template. *)
Fixpoint format_from (t : list ascii) (field : option (list ascii))
  (value : list ascii) : result (list ascii) :=
  match t, field with
  | [], None => Ok []
  | [], Some _ =>
      Err (Raise ValueError "expected '}' before end of string")
  | c :: t', Some f =>
      if Ascii.eqb c rbrace then
        if list_ascii_eqb f (chars "category")
        then (rest <- format_from t' None value ;; Ok (value ++ rest))
        else Err (unknown_field f)
      else if Ascii.eqb c lbrace then
        Err (Raise ValueError "unexpected '{' in field name")
      else format_from t' (Some (f ++ [c])) value
  | c :: t', None =>
      if Ascii.eqb c lbrace then
        match t' with
        | c' :: t'' =>
            if Ascii.eqb c' lbrace
            then (rest <- format_from t'' None value ;; Ok (lbrace :: rest))
            else format_from t' (Some []) value
        | [] => Err (Raise ValueError "Single '{' encountered in format string")
        end
      else if Ascii.eqb c rbrace then
        match t' with
        | c' :: t'' =>
            if Ascii.eqb c' rbrace
            then (rest <- format_from t'' None value ;; Ok (rbrace :: rest))
            else Err (Raise ValueError "Single '}' encountered in format string")
        | [] => Err (Raise ValueError "Single '}' encountered in format string")
        end
      else (rest <- format_from t' None value ;; Ok (c :: rest))
  end.

Definition format (template : string) (category : string) : result string :=
  r <- format_from (chars template) None (chars category) ;; Ok (text r).

(** ** Rules *)

Fixpoint enumerate {A : Type} (l : list A) (start : nat) : list (nat * A) :=
  match l with
  | [] => []
  | x :: l' => (start, x) :: enumerate l' (S start)
  end.

Module PatternRule.

Record t : Type := Build {
  base : Rule.t;
  pattern : regex;
  message_template : string
}.

(** The default of the [message_template] argument. *)
Definition default_message_template : string :=
  "Potential {category} issue found".

(** [PatternRule.__init__]: the attributes are stored and the pattern text
    is compiled; a text that does not compile raises. *)
Definition init (attrs : Rule.t) (pattern_text : string)
  (template : option string) : result t :=
  match Compile.compile pattern_text with
  | Some r =>
      Ok {| base := attrs;
            pattern := r;
            message_template :=
              match template with
              | Some m => m
              | None => default_message_template
              end |}
  | None => Err (Raise (OtherError "re.error") pattern_text)
  end.

(** The [Finding] appended for one match [m] on line [line_num]. *)
Definition finding (self : t) (file_path : string) (line_num : nat)
  (line : list ascii) (m : nat * nat) : result Finding.t :=
  msg <- format (message_template self)
                (RuleCategory_value (Rule.category (base self))) ;;
  Ok {| Finding.rule_id := Rule.rule_id (base self);
        Finding.rule_name := Rule.name (base self);
        Finding.category := Rule.category (base self);
        Finding.severity := Rule.severity (base self);
        Finding.message := msg;
        Finding.file_path := file_path;
        Finding.line_number := line_num;
        Finding.column := fst m + 1;
        Finding.snippet := text (firstn 100 (strip line));
        Finding.remediation := Rule.remediation (base self);
        Finding.references := Rule.references (base self) |}.

(** The body of the inner loop: [findings.append(Finding(...))]. *)
Definition on_match (self : t) (file_path : string) (line_num : nat)
  (line : list ascii) (acc : result (list Finding.t)) (m : nat * nat)
  : result (list Finding.t) :=
  findings <- acc ;;
  f <- finding self file_path line_num line m ;;
  Ok (findings ++ [f]).

(** The body of the outer loop: one line of the content. *)
Definition on_line (self : t) (file_path : string)
  (acc : result (list Finding.t)) (nl : nat * list ascii)
  : result (list Finding.t) :=
  fold_left (on_match self file_path (fst nl) (snd nl))
            (finditer (pattern self) (snd nl)) acc.

(** [PatternRule.check]. *)
Definition check (self : t) (content : string) (file_path : string)
  : result (list Finding.t) :=
  let lines := split_lines (chars content) in
  fold_left (on_line self file_path) (enumerate lines 1) (Ok []).

(** A hit: the number of a line, the line and the span of a match in it. *)
Definition hit : Type := (nat * list ascii * (nat * nat))%type.

Definition hits_of_line (self : t) (nl : nat * list ascii) : list hit :=
  map (fun m => (fst nl, snd nl, m)) (finditer (pattern self) (snd nl)).

(** The hits of a rule in a content: line by line, and left to right in a
    line. *)
Definition hits (self : t) (content : string) : list hit :=
  flat_map (hits_of_line self) (enumerate (split_lines (chars content)) 1).


(** The message of the rule: its template formatted with its category. *)
Definition message_of (self : t) : result string :=
  format (message_template self) (RuleCategory_value (Rule.category (base self))).

(** The finding of a hit, once the message is formatted. *)
Definition make (self : t) (file_path : string) (msg : string) (h : hit)
  : Finding.t :=
  {| Finding.rule_id := Rule.rule_id (base self);
     Finding.rule_name := Rule.name (base self);
     Finding.category := Rule.category (base self);
     Finding.severity := Rule.severity (base self);
     Finding.message := msg;
     Finding.file_path := file_path;
     Finding.line_number := fst (fst h);
     Finding.column := fst (snd h) + 1;
     Finding.snippet := text (firstn 100 (strip (snd (fst h))));
     Finding.remediation := Rule.remediation (base self);
     Finding.references := Rule.references (base self) |}.

End PatternRule.

(** ** The rule registry *)

Module Patterns.

Definition set_of (s : string) : atom := AClass (map CChar (chars s)).

Definition quote : atom := AClass [CChar dquote; CChar squote].

(** The pattern texts of the source (raw string literals, so every
    backslash is part of the pattern). *)
Definition dq : string := String dquote EmptyString.

Definition source_AG_001 : string :=
  "(system_prompt|system|prompt)\s*[=:]\s*[" ++ dq ++
  "\'].*(\{user_input|\{input|\{\{|%s|%d|\$\{)".

Definition source_AG_002 : string :=
  "(api[_-]?key|apikey|token|secret|password)\s*[=:]\s*[" ++ dq ++
  "\'][a-zA-Z0-9_-]{20,}[" ++ dq ++ "\']".

Definition source_AG_003 : string :=
  "(allow_all|unrestricted|bypass.*auth|disable.*check)".

Definition source_AG_004 : string :=
  "(read_file|write_file|delete_file)\s*[=:]\s*True|allow_all_files|bypass_path_validation".

Definition source_AG_005 : string :=
  "(http://|https://|fetch\(|requests\.|urllib)".

(** The pattern of AG-001; [source_AG_001] is its text. *)
Definition AG_001 : regex :=
  seqs [ RGroup (alts [lit "system_prompt"; lit "system"; lit "prompt"]);
         star ASpace; RAtom (set_of "=:"); star ASpace;
         RAtom quote; star ADot;
         RGroup (alts [lit "{user_input"; lit "{input"; lit "{{";
                       lit "%s"; lit "%d"; lit "${"]) ].

(** The pattern of AG-002; [source_AG_002] is its text. *)
Definition AG_002 : regex :=
  seqs [ RGroup (alts [seqs (lits "api" ++ [opt (set_of "_-")] ++ lits "key");
                       lit "apikey"; lit "token"; lit "secret";
                       lit "password"]);
         star ASpace; RAtom (set_of "=:"); star ASpace;
         RAtom quote;
         at_least 20 (AClass [CRange "a" "z"; CRange "A" "Z"; CRange "0" "9";
                              CChar "_"; CChar "-"]);
         RAtom quote ].

(** The pattern of AG-003; [source_AG_003] is its text. *)
Definition AG_003 : regex :=
  RGroup (alts [lit "allow_all"; lit "unrestricted";
                seqs (lits "bypass" ++ [star ADot] ++ lits "auth");
                seqs (lits "disable" ++ [star ADot] ++ lits "check")]).

(** The pattern of AG-004; [source_AG_004] is its text. *)
Definition AG_004 : regex :=
  alts [ seqs ([ RGroup (alts [lit "read_file"; lit "write_file";
                               lit "delete_file"]);
                 star ASpace; RAtom (set_of "=:"); star ASpace ]
               ++ lits "True");
         lit "allow_all_files";
         lit "bypass_path_validation" ].

(** The pattern of AG-005; [source_AG_005] is its text. *)
Definition AG_005 : regex :=
  RGroup (alts [lit "http://"; lit "https://"; lit "fetch(";
                lit "requests."; lit "urllib"]).

End Patterns.

Definition rule_AG_001 : PatternRule.t :=
  {| PatternRule.base :=
       {| Rule.rule_id := "AG-001";
          Rule.name := "Prompt Injection Vector";
          Rule.description := "User input is being directly concatenated into system prompts without sanitization";
          Rule.category := PROMPT_INJECTION;
          Rule.severity := CRITICAL;
          Rule.remediation := "Use prompt templates with strict parameter validation. Never concatenate user input directly into system prompts.";
          Rule.references :=
            [ "https://owasp.org/www-project-llm-top-10/";
              "https://portswigger.net/web-security/llm-attacks" ] |};
     PatternRule.pattern := Patterns.AG_001;
     PatternRule.message_template :=
       "Potential prompt injection: User input concatenated in system prompt" |}.

Definition rule_AG_002 : PatternRule.t :=
  {| PatternRule.base :=
       {| Rule.rule_id := "AG-002";
          Rule.name := "Hardcoded API Key";
          Rule.description := "API keys or secrets are hardcoded in configuration";
          Rule.category := SECRETS;
          Rule.severity := CRITICAL;
          Rule.remediation := "Use environment variables or a secrets manager. Never hardcode credentials.";
          Rule.references :=
            [ "https://cheatsheetseries.owasp.org/cheatsheets/Secrets_Management_Cheat_Sheet.html" ] |};
     PatternRule.pattern := Patterns.AG_002;
     PatternRule.message_template := "Hardcoded credential detected: {category}" |}.

Definition rule_AG_003 : PatternRule.t :=
  {| PatternRule.base :=
       {| Rule.rule_id := "AG-003";
          Rule.name := "Unrestricted Tool Permissions";
          Rule.description := "Tools have excessive permissions without validation";
          Rule.category := PERMISSIONS;
          Rule.severity := HIGH;
          Rule.remediation := "Implement least privilege principle. Validate all tool invocations.";
          Rule.references := [ "https://owasp.org/www-project-top-10/" ] |};
     PatternRule.pattern := Patterns.AG_003;
     PatternRule.message_template := "Excessive permissions detected: {category}" |}.

Definition rule_AG_004 : PatternRule.t :=
  {| PatternRule.base :=
       {| Rule.rule_id := "AG-004";
          Rule.name := "Unrestricted File System Access";
          Rule.description := "File system operations without path validation";
          Rule.category := FILE_ACCESS;
          Rule.severity := HIGH;
          Rule.remediation := "Validate all file paths against allowed directories. Use path canonicalization.";
          Rule.references := [ "https://owasp.org/www-community/attacks/Path_Traversal" ] |};
     PatternRule.pattern := Patterns.AG_004;
     PatternRule.message_template := "Unrestricted file access: {category}" |}.

Definition rule_AG_005 : PatternRule.t :=
  {| PatternRule.base :=
       {| Rule.rule_id := "AG-005";
          Rule.name := "Potential Data Exfiltration";
          Rule.description := "Tools can send data to external URLs without validation";
          Rule.category := NETWORK;
          Rule.severity := MEDIUM;
          Rule.remediation := "Validate all external URLs against an allowlist. Log all outbound requests.";
          Rule.references := [ "https://owasp.org/www-project-top-10/" ] |};
     PatternRule.pattern := Patterns.AG_005;
     PatternRule.message_template := "External network access detected: {category}" |}.

(** The registry, in the order of the source. *)
Definition RULES : list PatternRule.t :=
  [rule_AG_001; rule_AG_002; rule_AG_003; rule_AG_004; rule_AG_005].

(** ** The environment of a scan *)

(** What a path of the snapshot is. The outcome of
    [read_text(encoding="utf-8")] on a regular file is its decoded text, or
    the exception raised on opening or decoding it. *)
Inductive entry : Type :=
| RegularFile (read : result string)
| Directory.

(** The paths that exist, in the order in which a traversal meets them. *)
Record FileSystem : Type := { listing : list (string * entry) }.

(** What the clock gives for one scan: [datetime.utcnow().isoformat()] and
    the elapsed time in milliseconds, [int((time.time() - start_time) * 1000)]. *)
Record Clock : Type := { utcnow_isoformat : string; elapsed_ms : Z }.

(** The file system and, for the scan of each path, the clock. *)
Record World : Type := { fs : FileSystem; clock : string -> Clock }.

Module Path.

Fixpoint lookup (l : list (string * entry)) (p : string) : option entry :=
  match l with
  | [] => None
  | (q, e) :: l' => if String.eqb q p then Some e else lookup l' p
  end.

Definition stat (fsys : FileSystem) (p : string) : option entry :=
  lookup (listing fsys) p.

(** [path.exists()], [path.is_file()] and [path.is_dir()] where the status
    of the path can be read: what the snapshot holds at the path.  Where it
    cannot (a directory that may not be searched), the three raise; [Stat]
    below has that case. *)
Definition exists_ (fsys : FileSystem) (p : string) : bool :=
  match stat fsys p with
  | Some _ => true
  | None => false
  end.

Definition is_file (fsys : FileSystem) (p : string) : bool :=
  match stat fsys p with
  | Some (RegularFile _) => true
  | _ => false
  end.

Definition read_text (fsys : FileSystem) (p : string) : result string :=
  match stat fsys p with
  | Some (RegularFile r) => r
  | Some Directory =>
      Err (Raise IsADirectoryError
                 ("[Errno 21] Is a directory: " ++ text (repr (chars p))))
  | None =>
      Err (Raise FileNotFoundError
                 ("[Errno 2] No such file or directory: "
                  ++ text (repr (chars p))))
  end.

Definition slash : ascii := ascii_of_nat 47.
Definition dot : ascii := ascii_of_nat 46.

(** [path.name]: the final component. *)
Fixpoint name_chars (p : list ascii) : list ascii :=
  match p with
  | [] => []
  | c :: p' =>
      if existsb (Ascii.eqb slash) p' then name_chars p'
      else if Ascii.eqb c slash then p' else p
  end.

(** [s.rfind(c)], counted from [pos]. *)
Fixpoint rfind_from (c : ascii) (s : list ascii) (pos : nat) : option nat :=
  match s with
  | [] => None
  | d :: s' =>
      match rfind_from c s' (S pos) with
      | Some i => Some i
      | None => if Ascii.eqb d c then Some pos else None
      end
  end.

(** [path.suffix]: the last dot of the name and what follows it, unless the
    dot starts or ends the name. *)
Definition suffix (p : string) : string :=
  let name := name_chars (chars p) in
  match rfind_from dot name 0 with
  | Some i =>
      if (0 <? i) && (i <? List.length name - 1) then text (skipn i name)
      else ""
  | None => ""
  end.

Definition is_dir (fsys : FileSystem) (p : string) : bool :=
  match stat fsys p with
  | Some Directory => true
  | _ => false
  end.

(** A path of the subtree below [directory], at any depth. *)
Definition below (directory p : string) : bool :=
  starts_with (chars directory ++ [slash]) (chars p)
  && (String.length directory + 1 <? String.length p).

(** [path.rglob("*")]: every path of the subtree below [directory], files and
    directories alike; nothing when [directory] is not a directory. *)
Definition rglob (fsys : FileSystem) (directory : string) : list string :=
  if is_dir fsys directory
  then List.filter (below directory) (map fst (listing fsys))
  else [].

End Path.

(** ** The scanner *)

Module Scanner.

(** A [Rule] object: an instance of the base class, whose [check] is not
    implemented, a [PatternRule], or an instance of another subclass with a
    [check] of its own. *)
Inductive rule : Type :=
| BaseRule (r : Rule.t)
| Pattern (p : PatternRule.t)
| Custom (r : Rule.t) (check : string -> string -> result (list Finding.t)).

Definition attrs (r : rule) : Rule.t :=
  match r with
  | BaseRule b => b
  | Pattern p => PatternRule.base p
  | Custom b _ => b
  end.

(** [rule.check(content, file_path)], dispatched on the class. *)
Definition check (r : rule) (content file_path : string)
  : result (list Finding.t) :=
  match r with
  | BaseRule _ => Err (Raise NotImplementedError "")
  | Pattern p => PatternRule.check p content file_path
  | Custom _ f => f content file_path
  end.

Record t : Type := { rules : list rule }.

(** [Scanner(rules)]: [rules or RULES]. *)
Definition init (rules : option (list rule)) : t :=
  match rules with
  | Some (r :: rs) => {| rules := r :: rs |}
  | _ => {| rules := map Pattern RULES |}
  end.

(** The line printed when the [check] of a rule raises [e]. *)
Definition rule_error (r : rule) (e : exn) : string :=
  "Error running rule " ++ Rule.rule_id (attrs r) ++ ": " ++ exn_msg e.

(** The body of the loop over the rules: the findings so far and the lines
    printed so far. *)
Definition run_rule (content file_path : string)
  (st : list Finding.t * list string) (r : rule)
  : list Finding.t * list string :=
  match check r content file_path with
  | Ok rule_findings => (fst st ++ rule_findings, snd st)
  | Err e => (fst st, snd st ++ [rule_error r e])
  end.

(** The loop over the rules, from no findings and nothing printed. *)
Definition run_rules (self : t) (content file_path : string)
  : list Finding.t * list string :=
  fold_left (run_rule content file_path) (rules self) ([], []).

(** [Scanner.scan_file]: the value returned or the exception raised, and
    the lines printed. *)
Definition scan_file (self : t) (w : World) (file_path : string)
  : result ScanResult.t * list string :=
  if negb (Path.exists_ (fs w) file_path) then
    (Err (Raise FileNotFoundError ("File not found: " ++ file_path)%string), [])
  else
    match Path.read_text (fs w) file_path with
    | Err e => (Err e, [])
    | Ok content =>
        let st := run_rules self content file_path in
        (Ok {| ScanResult.file_path := file_path;
               ScanResult.findings := fst st;
               ScanResult.scanned_at := utcnow_isoformat (clock w file_path);
               ScanResult.duration_ms := elapsed_ms (clock w file_path) |},
         snd st)
    end.

Definition extensions : list string := [".yaml"; ".yml"; ".json"; ".py"].

Definition eligible (fsys : FileSystem) (file_path : string) : bool :=
  Path.is_file fsys file_path
  && existsb (String.eqb (Path.suffix file_path)) extensions.

(** The line printed when the scan of a file raises [e]. *)
Definition file_error (file_path : string) (e : exn) : string :=
  "Error scanning " ++ file_path ++ ": " ++ exn_msg e.

(** The body of the loop over the paths of the subtree. *)
Definition visit (self : t) (w : World)
  (st : list ScanResult.t * list string) (file_path : string)
  : list ScanResult.t * list string :=
  if eligible (fs w) file_path then
    match scan_file self w file_path with
    | (Ok result, printed) => (fst st ++ [result], snd st ++ printed)
    | (Err e, printed) => (fst st, snd st ++ printed ++ [file_error file_path e])
    end
  else st.

(** [Scanner.scan_directory]: the results and the lines printed. *)
Definition scan_directory (self : t) (w : World) (directory : string)
  : list ScanResult.t * list string :=
  fold_left (visit self w) (Path.rglob (fs w) directory) ([], []).

(** What one rule adds to the findings of a file, and what it prints. *)
Definition contributed (content file_path : string) (r : rule)
  : list Finding.t :=
  match check r content file_path with
  | Ok rule_findings => rule_findings
  | Err _ => []
  end.

Definition reported (content file_path : string) (r : rule) : list string :=
  match check r content file_path with
  | Ok _ => []
  | Err e => [rule_error r e]
  end.

(** What one path of the subtree adds to the results of a directory. *)
Definition scanned (self : t) (w : World) (file_path : string)
  : list ScanResult.t :=
  match fst (scan_file self w file_path) with
  | Ok result => [result]
  | Err _ => []
  end.



End Scanner.

(** ** The severity filter of the command line *)

Module Cli.

Definition severity_order : list string :=
  ["critical"; "high"; "medium"; "low"; "info"].

(** [Severity(value)]: the member of that value. *)
Definition Severity_of_value (v : string) : result Severity :=
  match List.find (fun s => String.eqb (Severity_value s) v)
                  [CRITICAL; HIGH; MEDIUM; LOW; INFO] with
  | Some s => Ok s
  | None => Err (Raise ValueError (v ++ " is not a valid Severity")%string)
  end.

(** [l.index(x)]. *)
Fixpoint index (l : list string) (x : string) : result nat :=
  match l with
  | [] => Err (Raise ValueError (x ++ " is not in list")%string)
  | y :: l' => if String.eqb y x then Ok 0 else (i <- index l' x ;; Ok (S i))
  end.

(** [severity_order[: min_index + 1]] for a minimum severity. *)
Definition allowed_for (min_severity : Severity) : result (list string) :=
  min_index <- index severity_order (Severity_value min_severity) ;;
  Ok (firstn (min_index + 1) severity_order).

(** [[f for f in findings if f.severity.value in allowed]]. *)
Definition keep (allowed : list string) (findings : list Finding.t)
  : list Finding.t :=
  List.filter
    (fun f => existsb (String.eqb (Severity_value (Finding.severity f))) allowed)
    findings.

Definition set_findings (r : ScanResult.t) (fs : list Finding.t)
  : ScanResult.t :=
  {| ScanResult.file_path := ScanResult.file_path r;
     ScanResult.findings := fs;
     ScanResult.scanned_at := ScanResult.scanned_at r;
     ScanResult.duration_ms := ScanResult.duration_ms r |}.

(** The block [if severity: ...] of [scan]: the results after it. *)
Definition filter_by_severity (severity : option string)
  (results : list ScanResult.t) : result (list ScanResult.t) :=
  match severity with
  | None => Ok results
  | Some "" => Ok results
  | Some v =>
      min_severity <- Severity_of_value v ;;
      allowed <- allowed_for min_severity ;;
      Ok (map (fun r => set_findings r (keep allowed (ScanResult.findings r)))
              results)
  end.

(** The findings that the filter keeps for a minimum severity. *)
Definition retained (min_severity : Severity) (findings : list Finding.t)
  : list Finding.t :=
  match allowed_for min_severity with
  | Ok allowed => keep allowed findings
  | Err _ => []
  end.

End Cli.

(** ** Serialisation *)

(** The values that [to_dict] builds: strings, integers, lists, and
    dictionaries with their keys in insertion order. *)
#[warnings="-register-all"]
Inductive json : Type :=
| JString (s : string)
| JInt (n : Z)
| JList (l : list json)
| JDict (fields : list (string * json)).

(** The dictionary of one finding in [ScanResult.to_dict]. *)
Definition finding_to_dict (f : Finding.t) : json :=
  JDict [ ("rule_id", JString (Finding.rule_id f));
          ("rule_name", JString (Finding.rule_name f));
          ("category", JString (RuleCategory_value (Finding.category f)));
          ("severity", JString (Severity_value (Finding.severity f)));
          ("message", JString (Finding.message f));
          ("line_number", JInt (Z.of_nat (Finding.line_number f)));
          ("column", JInt (Z.of_nat (Finding.column f)));
          ("snippet", JString (Finding.snippet f));
          ("remediation", JString (Finding.remediation f));
          ("references", JList (map JString (Finding.references f))) ].

(** [ScanResult.to_dict]. *)
Definition to_dict (self : ScanResult.t) : json :=
  JDict [ ("file_path", JString (ScanResult.file_path self));
          ("scanned_at", JString (ScanResult.scanned_at self));
          ("duration_ms", JInt (ScanResult.duration_ms self));
          ("findings", JList (map finding_to_dict (ScanResult.findings self))) ].

(** A finding with its file path blanked, and a result with the file paths
    of its findings blanked. *)
Definition without_path (f : Finding.t) : Finding.t :=
  {| Finding.rule_id := Finding.rule_id f;
     Finding.rule_name := Finding.rule_name f;
     Finding.category := Finding.category f;
     Finding.severity := Finding.severity f;
     Finding.message := Finding.message f;
     Finding.file_path := "";
     Finding.line_number := Finding.line_number f;
     Finding.column := Finding.column f;
     Finding.snippet := Finding.snippet f;
     Finding.remediation := Finding.remediation f;
     Finding.references := Finding.references f |}.

Definition without_finding_paths (r : ScanResult.t) : ScanResult.t :=
  Cli.set_findings r (map without_path (ScanResult.findings r)).

(** ** The [scan] command *)

Module Command.

(** The results that [scan] collects for [path], with the scanner of the
    registry: the result of the file when [path] is a regular file, the
    results of the directory otherwise. *)
Definition collect (w : World) (path : string)
  : result (list ScanResult.t) * list string :=
  let scanner := Scanner.init None in
  if Path.is_file (fs w) path then
    match Scanner.scan_file scanner w path with
    | (Ok result, printed) => (Ok [result], printed)
    | (Err e, printed) => (Err e, printed)
    end
  else
    let (results, printed) := Scanner.scan_directory scanner w path in
    (Ok results, printed).

Definition is_critical (f : Finding.t) : bool :=
  match Finding.severity f with
  | CRITICAL => true
  | _ => false
  end.

(** [sum(1 for r in results for f in r.findings if f.severity == CRITICAL)]. *)
Definition critical_count (results : list ScanResult.t) : nat :=
  list_sum (map (fun r => List.length (List.filter is_critical
                                          (ScanResult.findings r)))
                results).

(** The exit status: 1 when there is a critical finding. *)
Definition exit_status (results : list ScanResult.t) : nat :=
  if 0 <? critical_count results then 1 else 0.

(** [scan], up to the rendering of the output: the results reported and the
    exit status, or the exception that escapes, and the lines printed by the
    scanner. *)
Definition scan (w : World) (path : string) (severity : option string)
  : result (list ScanResult.t * nat) * list string :=
  match collect w path with
  | (Err e, printed) => (Err e, printed)
  | (Ok results, printed) =>
      match Cli.filter_by_severity severity results with
      | Err e => (Err e, printed)
      | Ok reported => (Ok (reported, exit_status reported), printed)
      end
  end.

End Command.

(** ** Paths whose status cannot be read *)

Module Stat.

(** A world in which [os.stat] fails on some paths with an error that
    [pathlib] does not take for absence, such as the [PermissionError] on an
    entry of a directory that may be listed but not searched: [denied p] is
    that error.  Everything else is as in [base]. *)
Record world : Type := { base : World; denied : string -> option exn }.

(** The world in which the status of every path can be read. *)
Definition readable (w : World) : world :=
  {| base := w; denied := fun _ => None |}.

(** [self.stat()] inside [exists], [is_file] and [is_dir]: the error is
    raised again, and otherwise the answer is that of the snapshot. *)
Definition guard (w : world) (p : string) (answer : bool) : result bool :=
  match denied w p with
  | Some e => Err e
  | None => Ok answer
  end.

Definition exists_ (w : world) (p : string) : result bool :=
  guard w p (Path.exists_ (fs (base w)) p).

Definition is_file (w : world) (p : string) : result bool :=
  guard w p (Path.is_file (fs (base w)) p).

Definition is_dir (w : world) (p : string) : result bool :=
  guard w p (Path.is_dir (fs (base w)) p).

(** [path.rglob("*")]: [is_dir] is asked of the directory itself; the
    entries below it are listed without a look at their status. *)
Definition rglob (w : world) (directory : string) : result (list string) :=
  d <- is_dir w directory ;;
  Ok (if d
      then List.filter (Path.below directory) (map fst (listing (fs (base w))))
      else []).

(** [Scanner.scan_file]. *)
Definition scan_file (self : Scanner.t) (w : world) (file_path : string)
  : result ScanResult.t * list string :=
  match exists_ w file_path with
  | Err e => (Err e, [])
  | Ok false =>
      (Err (Raise FileNotFoundError ("File not found: " ++ file_path)%string),
       [])
  | Ok true =>
      match Path.read_text (fs (base w)) file_path with
      | Err e => (Err e, [])
      | Ok content =>
          let st := Scanner.run_rules self content file_path in
          (Ok {| ScanResult.file_path := file_path;
                 ScanResult.findings := fst st;
                 ScanResult.scanned_at :=
                   utcnow_isoformat (clock (base w) file_path);
                 ScanResult.duration_ms :=
                   elapsed_ms (clock (base w) file_path) |},
           snd st)
      end
  end.

(** The loop of [scan_directory] over the paths that remain, from the
    results and the printed lines so far.  [is_file] is asked outside the
    [try]: when it raises, the loop ends and the exception leaves
    [scan_directory]; what [scan_file] raises is caught and printed. *)
Fixpoint visit_paths (self : Scanner.t) (w : world) (paths : list string)
  (st : list ScanResult.t * list string)
  : result (list ScanResult.t) * list string :=
  match paths with
  | [] => (Ok (fst st), snd st)
  | file_path :: rest =>
      match is_file w file_path with
      | Err e => (Err e, snd st)
      | Ok regular =>
          if regular
             && existsb (String.eqb (Path.suffix file_path)) Scanner.extensions
          then
            match scan_file self w file_path with
            | (Ok result, printed) =>
                visit_paths self w rest (fst st ++ [result], snd st ++ printed)
            | (Err e, printed) =>
                visit_paths self w rest
                  (fst st,
                   snd st ++ printed ++ [Scanner.file_error file_path e])
            end
          else visit_paths self w rest st
      end
  end.

(** [Scanner.scan_directory]: the results, or the exception that leaves it,
    and the lines printed. *)
Definition scan_directory (self : Scanner.t) (w : world) (directory : string)
  : result (list ScanResult.t) * list string :=
  match rglob w directory with
  | Err e => (Err e, [])
  | Ok paths => visit_paths self w paths ([], [])
  end.

(** The results that [scan] collects for [path]. *)
Definition collect (w : world) (path : string)
  : result (list ScanResult.t) * list string :=
  let scanner := Scanner.init None in
  match is_file w path with
  | Err e => (Err e, [])
  | Ok true =>
      match scan_file scanner w path with
      | (Ok result, printed) => (Ok [result], printed)
      | (Err e, printed) => (Err e, printed)
      end
  | Ok false => scan_directory scanner w path
  end.

End Stat.

(** ** Notions for the properties of the engine *)

(** The least number of characters that a match of the pattern covers. *)
Fixpoint min_len (r : regex) : nat :=
  match r with
  | REps => 0
  | RAtom _ => 1
  | RRep _ mn _ => mn
  | RSeq r1 r2 => min_len r1 + min_len r2
  | RAlt r1 r2 => Nat.min (min_len r1) (min_len r2)
  | RGroup r1 => min_len r1
  end.

(** A finding moved [n] lines down. *)
Definition shift_lines (n : nat) (f : Finding.t) : Finding.t :=
  {| Finding.rule_id := Finding.rule_id f;
     Finding.rule_name := Finding.rule_name f;
     Finding.category := Finding.category f;
     Finding.severity := Finding.severity f;
     Finding.message := Finding.message f;
     Finding.file_path := Finding.file_path f;
     Finding.line_number := n + Finding.line_number f;
     Finding.column := Finding.column f;
     Finding.snippet := Finding.snippet f;
     Finding.remediation := Finding.remediation f;
     Finding.references := Finding.references f |}.

(** Where a finding is: its line number and its column. *)
Definition position (f : Finding.t) : nat * nat :=
  (Finding.line_number f, Finding.column f).

(** The place of a hit: its line number and its span. *)
Definition hit_place (h : PatternRule.hit) : nat * (nat * nat) :=
  (fst (fst h), snd h).

(** Whether a file can be read. *)
Definition readable (fsys : FileSystem) (p : string) : bool :=
  match Path.read_text fsys p with
  | Ok _ => true
  | Err _ => false
  end.

(** The line printed for an eligible file that cannot be read. *)
Definition read_failure (fsys : FileSystem) (p : string) : list string :=
  match Path.read_text fsys p with
  | Ok _ => []
  | Err e => [Scanner.file_error p e]
  end.

(** The number of lines of a content. *)
Definition line_count (content : string) : nat :=
  List.length (split_lines (chars content)).

(** Whether a rule object is of a class of this module. *)
Definition is_builtin_class (r : Scanner.rule) : Prop :=
  match r with
  | Scanner.Custom _ _ => False
  | _ => True
  end.

(** The text of one newline, and two contents joined by a newline. *)
Definition nl : string := String newline EmptyString.

Definition joined (c1 c2 : string) : string := (c1 ++ nl ++ c2)%string.

(** ** The scenario of the prompt assignment *)

(** The one-line content [system_prompt = "Hello {user_input}"]. *)
Definition scenario : string :=
  "system_prompt = " ++ Patterns.dq ++ "Hello {user_input}" ++ Patterns.dq.

(** ** Sample inputs *)

Module Sample.

Definition clock0 : Clock := {| utcnow_isoformat := "2024-01-01T00:00:00"; elapsed_ms := 3%Z |}.

(** A directory with a file that cannot be read, a file with one finding
    and, in a sub-directory, a file whose extension is not scanned. *)
Definition world : World :=
  {| fs := {| listing :=
       [ ("conf", Directory);
         ("conf/locked.py",
          RegularFile (Err (Raise PermissionError "Permission denied")));
         ("conf/agent.yml", RegularFile (Ok "   allow_all: yes"));
         ("conf/sub", Directory);
         ("conf/sub/readme.md", RegularFile (Ok "see http://example.org")) ] |};
     clock := fun _ => clock0 |}.

Definition base_rule : Rule.t :=
  {| Rule.rule_id := "X-001"; Rule.name := "Abstract";
     Rule.description := "No check"; Rule.category := MEMORY;
     Rule.severity := LOW; Rule.remediation := ""; Rule.references := [] |}.

(** A scanner whose second rule is an instance of the base class. *)
Definition scanner : Scanner.t :=
  {| Scanner.rules :=
       [Scanner.Pattern rule_AG_003; Scanner.BaseRule base_rule;
        Scanner.Pattern rule_AG_005] |}.

Definition finding : Finding.t :=
  PatternRule.make rule_AG_003 "conf/agent.yml"
    "Excessive permissions detected: permissions"
    (1, chars "   allow_all: yes", (3, 12)).

Definition result : ScanResult.t :=
  {| ScanResult.file_path := "conf/agent.yml";
     ScanResult.findings := [finding];
     ScanResult.scanned_at := "2024-01-01T00:00:00";
     ScanResult.duration_ms := 3%Z |}.


End Sample.

(** ** More sample inputs *)

Module Demo.

(** An application directory: a settings file with a hard-coded password
    and a text file, which a directory scan does not read. *)
Definition world : World :=
  {| fs := {| listing :=
       [ ("app", Directory);
         ("app/settings.json",
          RegularFile (Ok "password: 'abcdefghij0123456789xyz'"));
         ("app/notes.txt", RegularFile (Ok "allow_all")) ] |};
     clock := fun _ => Sample.clock0 |}.

(** The attributes of a rule on permissions, and the rule constructed from
    them without a message template. *)
Definition attrs : Rule.t := PatternRule.base rule_AG_003.

Definition plain_rule : PatternRule.t :=
  {| PatternRule.base := attrs;
     PatternRule.pattern := Patterns.AG_003;
     PatternRule.message_template := PatternRule.default_message_template |}.

Definition plain_finding : Finding.t :=
  PatternRule.make plain_rule "a.yml" "Potential permissions issue found"
    (1, chars "allow_all", (0, 9)).

(** A finding of the same rule in another content, and the same finding
    one line further down. *)
Definition other_finding : Finding.t :=
  PatternRule.make plain_rule "a.yml" "Potential permissions issue found"
    (1, chars "x unrestricted", (2, 14)).

Definition second_finding : Finding.t :=
  PatternRule.make plain_rule "a.yml" "Potential permissions issue found"
    (2, chars "x unrestricted", (2, 14)).

Definition settings_result : ScanResult.t :=
  {| ScanResult.file_path := "app/settings.json";
     ScanResult.findings :=
       [ PatternRule.make rule_AG_002 "app/settings.json"
           "Hardcoded credential detected: secrets"
           (1, chars "password: 'abcdefghij0123456789xyz'", (0, 35)) ];
     ScanResult.scanned_at := "2024-01-01T00:00:00";
     ScanResult.duration_ms := 3%Z |}.

End Demo.

Module Faulty.

(** A rule on permissions whose message template names a field that
    [check] does not give to [format]. *)
Definition rule : PatternRule.t :=
  {| PatternRule.base := Demo.attrs;
     PatternRule.pattern := Patterns.AG_003;
     PatternRule.message_template := "{severity}: {category}" |}.

End Faulty.

Module Locked.

(** What [os.stat] raises on the file of the sub-directory. *)
Definition denial : exn :=
  Raise PermissionError
        "[Errno 13] Permission denied: 'conf/sub/locked.py'".

(** A directory with a rule file that can be read and, in a sub-directory
    that may be listed but not searched, a file of which neither the status
    nor the content can be read. *)
Definition world : Stat.world :=
  {| Stat.base :=
       {| fs := {| listing :=
            [ ("conf", Directory);
              ("conf/agent.yml", RegularFile (Ok "   allow_all: yes"));
              ("conf/sub", Directory);
              ("conf/sub/locked.py", RegularFile (Err denial)) ] |};
          clock := fun _ => Sample.clock0 |};
     Stat.denied :=
       fun p => if String.eqb p "conf/sub/locked.py" then Some denial
                else None |}.


End Locked.

(** * Properties *)

(** ** The matcher *)

Section MatcherFacts.

Variable r : regex.

Lemma rep_le (a : atom) (s : list ascii) :
  forall mn mx n, In n (rep a mn mx s) -> n <= List.length s.
Proof.
  induction s as [|c s IH]; intros mn mx n; simpl.
  - destruct (mn =? 0); simpl; intuition lia.
  - destruct (atom_match a c && can_take mx).
    + rewrite in_app_iff, in_map_iff. intros [[k [<- Hk]]|H].
      * apply IH in Hk. lia.
      * destruct (mn =? 0); simpl in H; intuition lia.
    + destruct (mn =? 0); simpl; intuition lia.
Qed.

Lemma ends_le : forall (r0 : regex) (s : list ascii) (n : nat),
  In n (ends r0 s) -> n <= List.length s.
Proof.
  induction r0 as [|a|a mn mx|r1 IH1 r2 IH2|r1 IH1 r2 IH2|r1 IH1];
    intros s n; simpl.
  - intuition lia.
  - destruct s as [|c s]; simpl; [tauto|].
    destruct (atom_match a c); simpl; intuition lia.
  - apply rep_le.
  - rewrite in_flat_map. intros [k [Hk Hn]].
    apply in_map_iff in Hn. destruct Hn as [j [<- Hj]].
    apply IH1 in Hk. apply IH2 in Hj. rewrite length_skipn in Hj. lia.
  - rewrite in_app_iff. intros [H|H]; [apply IH1|apply IH2]; exact H.
  - apply IH1.
Qed.

Lemma match_at_In (s : list ascii) (ma : bool) (n : nat) :
  match_at r s ma = Some n -> In n (ends r s).
Proof.
  unfold match_at. intros H. apply find_some in H. tauto.
Qed.

Lemma match_at_advances (s : list ascii) (n : nat) :
  match_at r s true = Some n -> 0 < n.
Proof.
  unfold match_at. intros H. apply find_some in H. destruct H as [_ H].
  destruct n; [discriminate|lia].
Qed.

Lemma matches_here_shape (s : list ascii) : here_shape r s (matches_here r s).
Proof.
  unfold matches_here.
  destruct (match_at r s false) as [[|n]|] eqn:E1.
  - apply match_at_In in E1.
    destruct (match_at r s true) as [[|n]|] eqn:E2.
    + now constructor.
    + apply match_at_In in E2. now constructor.
    + now constructor.
  - apply match_at_In in E1. now constructor.
  - constructor.
Qed.

(** A span reported by the scanner: it starts at an offset [i] of the
    text that is not covered by the previous match, the pattern matches
    there, and the span lies inside the text. *)
Lemma scan_sound : forall (s : list ascii) (pos skip : nat) (m : nat * nat),
  In m (scan r s pos skip) ->
  exists i len,
    m = (pos + i, pos + i + len) /\ skip <= i /\ i <= List.length s /\
    In len (ends r (skipn i s)).
Proof.
  induction s as [|c s IH]; intros pos skip m H.
  - destruct skip; simpl in H; [|tauto].
    pose proof (matches_here_shape []) as Hs.
    destruct (matches_here r []) as [lens k]. rewrite app_nil_r in H.
    apply in_map_iff in H. destruct H as [len [<- Hlen]].
    exists 0, len. rewrite Nat.add_0_r. simpl.
    repeat split; try lia.
    inversion Hs; subst; simpl in Hlen; intuition (subst; assumption).
  - destruct skip as [|k].
    + simpl in H.
      pose proof (matches_here_shape (c :: s)) as Hs.
      destruct (matches_here r (c :: s)) as [lens k].
      apply in_app_iff in H. destruct H as [H|H].
      * apply in_map_iff in H. destruct H as [len [<- Hlen]].
        exists 0, len. rewrite Nat.add_0_r.
        repeat split; simpl; try lia.
        inversion Hs; subst; simpl in Hlen; intuition (subst; assumption).
      * apply IH in H. destruct H as [i [len [-> [H1 [H2 H3]]]]].
        exists (S i), len. simpl. repeat split; try lia; try assumption.
        f_equal; lia.
    + simpl in H. apply IH in H. destruct H as [i [len [-> [H1 [H2 H3]]]]].
      exists (S i), len. simpl. repeat split; try lia; try assumption.
      f_equal; lia.
Qed.


Lemma finditer_sound (line : list ascii) (m : nat * nat) :
  In m (finditer r line) ->
  fst m <= snd m /\ snd m <= List.length line /\
  In (snd m - fst m) (ends r (skipn (fst m) line)).
Proof.
  intros H. apply scan_sound in H.
  destruct H as [i [len [-> [_ [Hi Hlen]]]]]. simpl.
  pose proof (ends_le _ _ _ Hlen) as Hle. rewrite length_skipn in Hle.
  replace (i + len - i) with len by lia.
  repeat split; try lia. exact Hlen.
Qed.


End MatcherFacts.

(** ** [PatternRule.check] as a list of hits *)

Lemma enumerate_In {A : Type} : forall (l : list A) (start n : nat) (x : A),
  In (n, x) (enumerate l start) ->
  start <= n /\ nth_error l (n - start) = Some x.
Proof.
  induction l as [|y l IH]; intros start n x H; simpl in H; [tauto|].
  destruct H as [H|H].
  - inversion H; subst. rewrite Nat.sub_diag. split; [lia|reflexivity].
  - apply IH in H. destruct H as [H1 H2]. split; [lia|].
    replace (n - start) with (S (n - S start)) by lia. exact H2.
Qed.


Section CheckFacts.

Variable self : PatternRule.t.
Variable file_path : string.

Local Abbreviation hits_of_line := (PatternRule.hits_of_line self).
Local Abbreviation hits := (PatternRule.hits self).
Local Abbreviation message_of := (PatternRule.message_of self).
Local Abbreviation make := (PatternRule.make self file_path).

Lemma finding_eq (n : nat) (line : list ascii) (m : nat * nat) :
  PatternRule.finding self file_path n line m =
  (msg <- message_of ;; Ok (make msg (n, line, m))).
Proof. reflexivity. Qed.

Lemma on_match_err (n : nat) (line : list ascii) (e : exn) :
  forall ms, fold_left (PatternRule.on_match self file_path n line) ms (Err e)
             = Err e.
Proof. induction ms as [|m ms IH]; simpl; [reflexivity|exact IH]. Qed.

Lemma on_line_err (e : exn) :
  forall nls, fold_left (PatternRule.on_line self file_path) nls (Err e) = Err e.
Proof.
  induction nls as [|nl nls IH]; simpl; [reflexivity|].
  unfold PatternRule.on_line at 2. rewrite on_match_err. exact IH.
Qed.

(** The loops when the message can be formatted. *)
Lemma on_match_ok (msg : string) (n : nat) (line : list ascii) :
  message_of = Ok msg ->
  forall ms acc,
    fold_left (PatternRule.on_match self file_path n line) ms (Ok acc)
    = Ok (acc ++ map (fun m => make msg (n, line, m)) ms).
Proof.
  intros Hmsg. induction ms as [|m ms IH]; intros acc; simpl.
  - now rewrite app_nil_r.
  - rewrite finding_eq, Hmsg. simpl. rewrite IH, <- app_assoc. reflexivity.
Qed.

Lemma on_line_ok (msg : string) :
  message_of = Ok msg ->
  forall nls acc,
    fold_left (PatternRule.on_line self file_path) nls (Ok acc)
    = Ok (acc ++ map (make msg) (flat_map hits_of_line nls)).
Proof.
  intros Hmsg. induction nls as [|nl nls IH]; intros acc; simpl.
  - now rewrite app_nil_r.
  - unfold PatternRule.on_line at 2. rewrite (on_match_ok _ _ _ Hmsg), IH.
    rewrite map_app, <- app_assoc. unfold PatternRule.hits_of_line at 2.
    rewrite map_map. reflexivity.
Qed.

(** The loops when the message cannot be formatted: the first match raises. *)
Lemma on_match_raise (e : exn) (n : nat) (line : list ascii) :
  message_of = Err e ->
  forall ms acc, ms <> [] ->
    fold_left (PatternRule.on_match self file_path n line) ms (Ok acc) = Err e.
Proof.
  intros Hmsg [|m ms] acc H; [congruence|]. simpl.
  rewrite finding_eq, Hmsg. simpl. apply on_match_err.
Qed.

Lemma on_line_raise (e : exn) :
  message_of = Err e ->
  forall nls acc,
    fold_left (PatternRule.on_line self file_path) nls (Ok acc)
    = match flat_map hits_of_line nls with
      | [] => Ok acc
      | _ :: _ => Err e
      end.
Proof.
  intros Hmsg. induction nls as [|nl nls IH]; intros acc; simpl; [reflexivity|].
  unfold PatternRule.on_line at 2. unfold PatternRule.hits_of_line at 1.
  destruct (finditer (PatternRule.pattern self) (snd nl)) as [|m ms] eqn:E.
  - simpl. apply IH.
  - rewrite (on_match_raise _ _ _ Hmsg); [|discriminate]. rewrite on_line_err.
    reflexivity.
Qed.

(** [check] returns the findings of the hits, in their order, or raises what
    formatting the message raises at the first hit. *)
Lemma check_eq (content : string) :
  PatternRule.check self content file_path =
  match hits content with
  | [] => Ok []
  | _ :: _ => msg <- message_of ;; Ok (map (make msg) (hits content))
  end.
Proof.
  unfold PatternRule.check, PatternRule.hits.
  destruct message_of as [msg|e] eqn:Hmsg.
  - rewrite (on_line_ok _ Hmsg). simpl.
    destruct (flat_map _ _); reflexivity.
  - rewrite (on_line_raise _ Hmsg). destruct (flat_map _ _); reflexivity.
Qed.

Lemma check_inv (content : string) (fs : list Finding.t) :
  PatternRule.check self content file_path = Ok fs ->
  exists msg, fs = map (make msg) (hits content).
Proof.
  rewrite check_eq. destruct (hits content) as [|h hs] eqn:E.
  - intros H. inversion H. exists "". reflexivity.
  - destruct message_of as [msg|e]; simpl; intros H; inversion H.
    exists msg. reflexivity.
Qed.

(** A hit lies on a line of the content, numbered from 1, at a match of the
    pattern in that line. *)
Lemma hits_In (content : string) (h : PatternRule.hit) :
  In h (hits content) ->
  1 <= fst (fst h) /\
  nth_error (split_lines (chars content)) (fst (fst h) - 1) = Some (snd (fst h)) /\
  In (snd h) (finditer (PatternRule.pattern self) (snd (fst h))).
Proof.
  unfold PatternRule.hits. rewrite in_flat_map. intros [[n line] [Hnl Hh]].
  unfold PatternRule.hits_of_line in Hh. apply in_map_iff in Hh.
  destruct Hh as [m [<- Hm]]. simpl in *.
  apply enumerate_In in Hnl. tauto.
Qed.

End CheckFacts.

(** ** Stripping *)

Lemma lstrip_split (s : list ascii) :
  exists lead, s = lead ++ lstrip s /\ Forall (fun c => isspace c = true) lead.
Proof.
  induction s as [|c s [lead [IH1 IH2]]]; simpl.
  - exists []. split; [reflexivity|constructor].
  - destruct (isspace c) eqn:E.
    + exists (c :: lead). split; [simpl; congruence|now constructor].
    + exists []. split; [reflexivity|constructor].
Qed.

Lemma lstrip_head (s : list ascii) (c : ascii) :
  hd_error (lstrip s) = Some c -> isspace c = false.
Proof.
  induction s as [|d s IH]; simpl; [discriminate|].
  destruct (isspace d) eqn:E; [exact IH|].
  simpl. intros H. inversion H; subst. exact E.
Qed.

Lemma lstrip_idem (s : list ascii) : lstrip (lstrip s) = lstrip s.
Proof.
  induction s as [|d s IH]; simpl; [reflexivity|].
  destruct (isspace d) eqn:E; [exact IH|]. simpl. now rewrite E.
Qed.

(** [strip] removes a run of white space at each end, and what it leaves
    neither starts nor ends with white space. *)
Lemma strip_split (s : list ascii) :
  exists lead trail,
    s = lead ++ strip s ++ trail /\
    Forall (fun c => isspace c = true) lead /\
    Forall (fun c => isspace c = true) trail /\
    (forall c, hd_error (strip s) = Some c -> isspace c = false) /\
    (forall c, hd_error (rev (strip s)) = Some c -> isspace c = false).
Proof.
  unfold strip.
  destruct (lstrip_split (rstrip s)) as [lead [H1 H2]].
  destruct (lstrip_split (rev s)) as [trail [H3 H4]].
  exists lead, (rev trail). repeat split.
  - rewrite app_assoc, <- H1. unfold rstrip.
    rewrite <- rev_app_distr, <- H3. now rewrite rev_involutive.
  - exact H2.
  - apply Forall_rev. exact H4.
  - apply lstrip_head.
  - intros c Hc. apply (lstrip_head (rev s)).
    assert (E : lstrip (rev s) = rev (lstrip (rstrip s)) ++ rev lead).
    { rewrite <- rev_app_distr, <- H1. unfold rstrip.
      now rewrite rev_involutive. }
    rewrite E. destruct (rev (lstrip (rstrip s))); [discriminate|exact Hc].
Qed.

Lemma length_text (l : list ascii) : String.length (text l) = List.length l.
Proof. induction l as [|c l IH]; simpl; congruence. Qed.

(** Stripping and cutting do not commute: cutting first can lose text that
    stripping would have kept. *)
Lemma strip_then_cut_differs_from_cut_then_strip :
  let line := repeat (ascii_of_nat 32) 3 ++ repeat (ascii_of_nat 120) 100 in
  List.length (firstn 100 (strip line)) = 100 /\
  List.length (strip (firstn 100 line)) = 97.
Proof. split; vm_compute; reflexivity. Qed.

(** ** Findings of [PatternRule.check] *)

Section Findings.

Variable self : PatternRule.t.
Variables content file_path : string.

(** C2. Every finding that [PatternRule.check] returns lies on a line of the
    content, numbered from 1, and its column is the offset, in that line as
    it stands in the content (not stripped), of the start of a match that
    [finditer] reports, plus 1; so columns and line numbers are at least 1. *)
Theorem check_column_is_match_start_plus_one
  (fs : list Finding.t) (f : Finding.t) :
  PatternRule.check self content file_path = Ok fs ->
  In f fs ->
  exists line start stop,
    nth_error (split_lines (chars content)) (Finding.line_number f - 1)
      = Some line /\
    In (start, stop) (finditer (PatternRule.pattern self) line) /\
    matches_at (PatternRule.pattern self) line start (stop - start) /\
    Finding.column f = start + 1 /\
    1 <= Finding.column f /\
    1 <= Finding.line_number f.
Proof.
  intros Hck Hf. apply check_inv in Hck. destruct Hck as [msg ->].
  apply in_map_iff in Hf. destruct Hf as [[[n line] [start stop]] [<- Hh]].
  apply hits_In in Hh. simpl in Hh. destruct Hh as [Hn [Hline Hm]].
  exists line, start, stop. simpl.
  pose proof (finditer_sound _ _ _ Hm) as [H1 [H2 H3]]. simpl in *.
  repeat split; try assumption; lia.
Qed.

(** C4. The snippet of every finding that [PatternRule.check] returns is the
    line of the finding with the white space at its two ends removed, cut to
    its first 100 characters: the line is stripped first and the stripped
    text is then cut. *)
Theorem check_snippet_is_stripped_then_truncated
  (fs : list Finding.t) (f : Finding.t) :
  PatternRule.check self content file_path = Ok fs ->
  In f fs ->
  exists line lead trail,
    nth_error (split_lines (chars content)) (Finding.line_number f - 1)
      = Some line /\
    line = lead ++ strip line ++ trail /\
    Forall (fun c => isspace c = true) lead /\
    Forall (fun c => isspace c = true) trail /\
    (forall c, hd_error (strip line) = Some c -> isspace c = false) /\
    (forall c, hd_error (rev (strip line)) = Some c -> isspace c = false) /\
    Finding.snippet f = text (firstn 100 (strip line)) /\
    String.length (Finding.snippet f) <= 100.
Proof.
  intros Hck Hf. apply check_inv in Hck. destruct Hck as [msg ->].
  apply in_map_iff in Hf. destruct Hf as [[[n line] m] [<- Hh]].
  apply hits_In in Hh. simpl in Hh. destruct Hh as [Hn [Hline Hm]].
  destruct (strip_split line) as [lead [trail [H1 [H2 [H3 [H4 H5]]]]]].
  exists line, lead, trail.
  cbn [PatternRule.make Finding.line_number Finding.snippet fst snd].
  repeat split; try assumption.
  rewrite length_text. apply firstn_le_length.
Qed.

(** C10. Two invocations of [PatternRule.check] of one rule on the same
    content and file path have the same outcome, and every finding returned
    carries the file path given and the identifier, severity, category,
    remediation and references of the rule. *)
Theorem check_deterministic_and_traceable
  (out1 out2 : result (list Finding.t)) :
  PatternRule.check self content file_path = out1 ->
  PatternRule.check self content file_path = out2 ->
  out1 = out2 /\
  forall fs f, out1 = Ok fs -> In f fs ->
    Finding.file_path f = file_path /\
    Finding.rule_id f = Rule.rule_id (PatternRule.base self) /\
    Finding.severity f = Rule.severity (PatternRule.base self) /\
    Finding.category f = Rule.category (PatternRule.base self) /\
    Finding.remediation f = Rule.remediation (PatternRule.base self) /\
    Finding.references f = Rule.references (PatternRule.base self).
Proof.
  intros H1 H2. split; [congruence|].
  intros fs f Hout Hf. rewrite Hout in H1. apply check_inv in H1.
  destruct H1 as [msg ->]. apply in_map_iff in Hf.
  destruct Hf as [h [<- _]]. simpl. repeat split; reflexivity.
Qed.

End Findings.

(** ** The registry and the pattern texts of the source *)

(** Each rule of the registry is what the constructor builds from the
    pattern text of the source. *)
Lemma registry_is_constructed_from_source :
  Forall2
    (fun rule src =>
       PatternRule.init (PatternRule.base rule) src
                        (Some (PatternRule.message_template rule)) = Ok rule)
    RULES
    [Patterns.source_AG_001; Patterns.source_AG_002; Patterns.source_AG_003;
     Patterns.source_AG_004; Patterns.source_AG_005].
Proof. repeat constructor. Qed.

(** The message of every rule of the registry can be formatted, so the
    [check] of such a rule returns. *)
Lemma registry_check_returns (rule : PatternRule.t) (content file_path : string) :
  In rule RULES ->
  exists fs, PatternRule.check rule content file_path = Ok fs.
Proof.
  intros H. rewrite check_eq.
  destruct (PatternRule.hits rule content) as [|h hs]; [now eexists|].
  assert (Hmsg : exists msg, PatternRule.message_of rule = Ok msg).
  { repeat (destruct H as [<-|H]; [eexists; vm_compute; reflexivity|]).
    destruct H. }
  destruct Hmsg as [msg ->]. simpl. now eexists.
Qed.

(** ** Case-insensitive matching *)

Ltac by_cases_on_char c :=
  destruct c as [b0 b1 b2 b3 b4 b5 b6 b7];
  destruct b0, b1, b2, b3, b4, b5, b6, b7; vm_compute; reflexivity.

Lemma newline_tolower (c : ascii) :
  Ascii.eqb (tolower c) newline = Ascii.eqb c newline.
Proof. by_cases_on_char c. Qed.

Lemma isspace_tolower (c : ascii) : isspace (tolower c) = isspace c.
Proof. by_cases_on_char c. Qed.






Lemma case_variant_length (s s' : list ascii) :
  case_variant s s' -> List.length s = List.length s'.
Proof. induction 1; simpl; congruence. Qed.

Lemma case_variant_skipn (s s' : list ascii) :
  case_variant s s' -> forall n, case_variant (skipn n s) (skipn n s').
Proof.
  induction 1 as [|a b s s' Hab Hs IH]; intros [|n]; simpl;
    try constructor; auto.
Qed.

Section IgnoreCase.

Variables a b : ascii.
Hypothesis fold : tolower a = tolower b.

Lemma citem_match_fold (i : citem) : citem_match i a = citem_match i b.
Proof. destruct i; simpl; now rewrite fold. Qed.

Lemma atom_match_fold (x : atom) : atom_match x a = atom_match x b.
Proof.
  destruct x as [c| | |items]; simpl.
  - now rewrite fold.
  - now rewrite <- (newline_tolower a), <- (newline_tolower b), fold.
  - now rewrite <- (isspace_tolower a), <- (isspace_tolower b), fold.
  - induction items as [|i items IH]; simpl; [reflexivity|].
    now rewrite citem_match_fold, IH.
Qed.

End IgnoreCase.

Lemma rep_fold (x : atom) (s s' : list ascii) :
  case_variant s s' -> forall mn mx, rep x mn mx s = rep x mn mx s'.
Proof.
  induction 1 as [|a b s s' Hab Hs IH]; intros mn mx; simpl; [reflexivity|].
  now rewrite (atom_match_fold _ _ Hab), IH.
Qed.

Lemma ends_fold : forall (r : regex) (s s' : list ascii),
  case_variant s s' -> ends r s = ends r s'.
Proof.
  induction r as [|x|x mn mx|r1 IH1 r2 IH2|r1 IH1 r2 IH2|r1 IH1];
    intros s s' H; simpl.
  - reflexivity.
  - destruct H as [|a b s s' Hab Hs]; [reflexivity|].
    now rewrite (atom_match_fold _ _ Hab).
  - now apply rep_fold.
  - rewrite (IH1 _ _ H). apply flat_map_ext. intros n.
    now rewrite (IH2 _ _ (case_variant_skipn _ _ H n)).
  - now rewrite (IH1 _ _ H), (IH2 _ _ H).
  - now apply IH1.
Qed.

Lemma matches_here_fold (r : regex) (s s' : list ascii) :
  case_variant s s' -> matches_here r s = matches_here r s'.
Proof.
  intros H. unfold matches_here, match_at. now rewrite (ends_fold r _ _ H).
Qed.

Lemma scan_fold (r : regex) (s s' : list ascii) :
  case_variant s s' ->
  forall pos skip, scan r s pos skip = scan r s' pos skip.
Proof.
  induction 1 as [|a b s s' Hab Hs IH]; intros pos skip; [reflexivity|].
  assert (H : case_variant (a :: s) (b :: s')) by now constructor.
  destruct skip as [|k]; simpl; [|apply IH].
  rewrite (matches_here_fold r _ _ H).
  destruct (matches_here r (b :: s')) as [lens k]. now rewrite IH.
Qed.

(** Matching does not see the case of the text, for any pattern. *)
Lemma matching_ignores_case (r : regex) (line line' : list ascii) :
  case_variant line line' ->
  (forall off len, matches_at r line off len <-> matches_at r line' off len) /\
  finditer r line = finditer r line'.
Proof.
  intros H. split; [|now apply scan_fold].
  intros off len. unfold matches_at.
  rewrite (ends_fold r _ _ (case_variant_skipn _ _ H off)), (case_variant_length _ _ H).
  tauto.
Qed.













(** ** The scenario *)

(** The scenario line holds [{user_input] at index 23, and the only match
    of AG-001 in it starts at offset 0, at [system_prompt]. *)
Lemma scenario_offsets :
  Text.find (chars "{user_input") (chars scenario) = Some 23 /\
  finditer Patterns.AG_001 (chars scenario) = [(0, 34)].
Proof. split; vm_compute; reflexivity. Qed.

(** C1, as stated, fails: the column of the finding is not the index of
    [{user_input] plus 1. *)
Lemma scenario_column_is_not_placeholder_index :
  ~ (exists f i,
       fst (Scanner.run_rules (Scanner.init None) scenario "agent.py") = [f] /\
       Finding.rule_id f = "AG-001" /\
       Finding.severity f = CRITICAL /\
       Finding.line_number f = 1 /\
       Text.find (chars "{user_input") (chars scenario) = Some i /\
       Finding.column f = i + 1).
Proof.
  intros [f [i [Hfs [_ [_ [_ [Hi Hcol]]]]]]].
  vm_compute in Hfs. vm_compute in Hi.
  inversion Hfs; subst f. inversion Hi; subst i.
  vm_compute in Hcol. discriminate.
Qed.

(** C1, amended. Scanning the scenario line with the registry yields exactly
    one finding; it is of rule AG-001, critical, on line 1, and its column is
    1: the offset of the start of the whole match, which begins at
    [system_prompt] (offset 0), plus 1. *)
Theorem scenario_single_finding_at_column_one (file_path : string) :
  exists f,
    Scanner.run_rules (Scanner.init None) scenario file_path = ([f], []) /\
    Finding.rule_id f = "AG-001" /\
    Finding.severity f = CRITICAL /\
    Finding.line_number f = 1 /\
    Text.find (chars "system_prompt") (chars scenario) = Some 0 /\
    Finding.column f = 0 + 1.
Proof.
  eexists. split; [vm_compute; reflexivity|].
  repeat split.
Qed.

(** ** The orchestrator *)

Section Orchestrator.

Variable self : Scanner.t.
Variable w : World.

Lemma run_rule_fold (content file_path : string) :
  forall (rs : list Scanner.rule) (st : list Finding.t * list string),
    fold_left (Scanner.run_rule content file_path) rs st =
    (fst st ++ flat_map (Scanner.contributed content file_path) rs,
     snd st ++ flat_map (Scanner.reported content file_path) rs).
Proof.
  induction rs as [|r rs IH]; intros [fs out]; simpl.
  - now rewrite !app_nil_r.
  - rewrite IH. unfold Scanner.run_rule, Scanner.contributed, Scanner.reported.
    destruct (Scanner.check r content file_path) as [rf|e]; simpl;
      now rewrite <- ?app_assoc.
Qed.

Lemma run_rules_eq (content file_path : string) :
  Scanner.run_rules self content file_path =
  (flat_map (Scanner.contributed content file_path) (Scanner.rules self),
   flat_map (Scanner.reported content file_path) (Scanner.rules self)).
Proof. unfold Scanner.run_rules. now rewrite run_rule_fold. Qed.

Lemma read_text_exists (file_path content : string) :
  Path.read_text (fs w) file_path = Ok content ->
  Path.exists_ (fs w) file_path = true.
Proof.
  unfold Path.read_text, Path.exists_.
  destruct (Path.stat (fs w) file_path) as [[r|]|]; [reflexivity| |];
    discriminate.
Qed.

(** [scan_file] on a file that can be read. *)
Lemma scan_file_readable (file_path content : string) :
  Path.read_text (fs w) file_path = Ok content ->
  Scanner.scan_file self w file_path =
  (Ok {| ScanResult.file_path := file_path;
         ScanResult.findings :=
           flat_map (Scanner.contributed content file_path) (Scanner.rules self);
         ScanResult.scanned_at := utcnow_isoformat (clock w file_path);
         ScanResult.duration_ms := elapsed_ms (clock w file_path) |},
   flat_map (Scanner.reported content file_path) (Scanner.rules self)).
Proof.
  intros H. unfold Scanner.scan_file.
  rewrite (read_text_exists _ _ H), H. simpl. now rewrite run_rules_eq.
Qed.

(** [scan_file] on a file that exists and cannot be read. *)
Lemma scan_file_unreadable (file_path : string) (e : exn) :
  Path.exists_ (fs w) file_path = true ->
  Path.read_text (fs w) file_path = Err e ->
  Scanner.scan_file self w file_path = (Err e, []).
Proof.
  intros Hex H. unfold Scanner.scan_file. now rewrite Hex, H.
Qed.

(** C5. On a file that exists and can be read, a rule whose [check] raises
    is caught where the rules are run: [scan_file] returns a result, whose
    findings are those of the rules before the failing one followed by those
    of the rules after it, and the failure is printed. *)
Theorem scan_file_survives_failing_rule
  (file_path content : string) (before_it after_it : list Scanner.rule)
  (failing : Scanner.rule) (e : exn) :
  Path.read_text (fs w) file_path = Ok content ->
  Scanner.rules self = before_it ++ failing :: after_it ->
  Scanner.check failing content file_path = Err e ->
  exists (result : ScanResult.t) (printed : list string),
    Scanner.scan_file self w file_path = (Ok result, printed) /\
    ScanResult.file_path result = file_path /\
    ScanResult.findings result =
      flat_map (Scanner.contributed content file_path) before_it ++
      flat_map (Scanner.contributed content file_path) after_it /\
    Scanner.contributed content file_path failing = [] /\
    In (Scanner.rule_error failing e) printed.
Proof.
  intros Hread Hrules Hfail.
  assert (Hc : Scanner.contributed content file_path failing = []).
  { unfold Scanner.contributed. now rewrite Hfail. }
  eexists. eexists. split; [apply (scan_file_readable _ _ Hread)|].
  simpl. rewrite Hrules, !flat_map_app. simpl. rewrite Hc. simpl.
  repeat split. apply in_or_app. right. apply in_or_app. left.
  unfold Scanner.reported. rewrite Hfail. now left.
Qed.

(** C6. On a path that does not exist [scan_file] raises
    [FileNotFoundError] and returns no result; on a path that exists and can
    be read it returns a result. *)
Theorem scan_file_not_found_only_when_missing (file_path : string) :
  (Path.exists_ (fs w) file_path = false ->
   Scanner.scan_file self w file_path =
   (Err (Raise FileNotFoundError ("File not found: " ++ file_path)), [])) /\
  (forall content,
     Path.exists_ (fs w) file_path = true ->
     Path.read_text (fs w) file_path = Ok content ->
     exists result, fst (Scanner.scan_file self w file_path) = Ok result).
Proof.
  split.
  - intros H. unfold Scanner.scan_file. now rewrite H.
  - intros content _ H. rewrite (scan_file_readable _ _ H). now eexists.
Qed.

Lemma visit_fold :
  forall (ps : list string) (st : list ScanResult.t * list string),
    fst (fold_left (Scanner.visit self w) ps st) =
    fst st ++ flat_map (Scanner.scanned self w)
                       (List.filter (Scanner.eligible (fs w)) ps).
Proof.
  induction ps as [|p ps IH]; intros [rs out]; simpl.
  - now rewrite app_nil_r.
  - rewrite IH. unfold Scanner.visit.
    destruct (Scanner.eligible (fs w) p); [|reflexivity].
    simpl. unfold Scanner.scanned at 2.
    destruct (Scanner.scan_file self w p) as [[res|e] printed]; simpl;
      now rewrite <- ?app_assoc.
Qed.



(** The results of a directory: those of the eligible paths of its subtree,
    in the order of the traversal, the ones whose scan raises left out. *)
Lemma scan_directory_eq (directory : string) :
  fst (Scanner.scan_directory self w directory) =
  flat_map (Scanner.scanned self w)
           (List.filter (Scanner.eligible (fs w))
                        (Path.rglob (fs w) directory)).
Proof. unfold Scanner.scan_directory. now rewrite visit_fold. Qed.

End Orchestrator.

(** ** Order of the findings *)


Section SortedLists.

Variables A B : Type.



End SortedLists.



Section FindingOrder.

Variable rule : PatternRule.t.
Variables content file_path : string.





End FindingOrder.


Section Scans.

Variable self : Scanner.t.
Variable w : World.

Lemma scan_file_ok_inv (file_path : string) (result : ScanResult.t)
  (printed : list string) :
  Scanner.scan_file self w file_path = (Ok result, printed) ->
  exists content, Path.read_text (fs w) file_path = Ok content.
Proof.
  unfold Scanner.scan_file.
  destruct (Path.exists_ (fs w) file_path); simpl; [|discriminate].
  destruct (Path.read_text (fs w) file_path) as [content|e];
    [now exists content|discriminate].
Qed.


Lemma eligible_iff (file_path : string) :
  Scanner.eligible (fs w) file_path = true <->
  Path.is_file (fs w) file_path = true /\
  In (Path.suffix file_path) [".yaml"; ".yml"; ".json"; ".py"].
Proof.
  unfold Scanner.eligible. rewrite andb_true_iff, existsb_exists.
  split; intros [H1 H2]; (split; [exact H1|]).
  - destruct H2 as [x [Hx Heq]]. apply String.eqb_eq in Heq. now subst.
  - exists (Path.suffix file_path). split; [exact H2|apply String.eqb_refl].
Qed.

Lemma is_file_exists (file_path : string) :
  Path.is_file (fs w) file_path = true -> Path.exists_ (fs w) file_path = true.
Proof.
  unfold Path.is_file, Path.exists_.
  destruct (Path.stat (fs w) file_path) as [[r|]|]; [reflexivity| |];
    discriminate.
Qed.


End Scans.

(** ** Paths whose status cannot be read *)


Section StatFailures.

Variable self : Scanner.t.
Variable w : Stat.world.







End StatFailures.




(** ** The severity filter *)

Lemma retained_eq (threshold : Severity) (findings : list Finding.t) :
  Cli.retained threshold findings =
  List.filter
    (fun f => severity_rank (Finding.severity f) <=? severity_rank threshold)
    findings.
Proof.
  unfold Cli.retained.
  assert (H : forall s,
             match Cli.allowed_for threshold with
             | Ok allowed => existsb (String.eqb (Severity_value s)) allowed
             | Err _ => false
             end = (severity_rank s <=? severity_rank threshold)).
  { intros s. destruct threshold, s; reflexivity. }
  destruct (Cli.allowed_for threshold) as [allowed|e] eqn:E.
  - unfold Cli.keep. apply filter_ext. intros f. apply H.
  - destruct threshold; discriminate.
Qed.

Lemma filter_by_severity_eq (x : Severity) (results : list ScanResult.t) :
  Cli.filter_by_severity (Some (Severity_value x)) results =
  Ok (map (fun r => Cli.set_findings r (Cli.retained x (ScanResult.findings r)))
          results).
Proof. destruct x; reflexivity. Qed.


(** ** The theorems at sample inputs *)

Lemma check_column_sample :
  PatternRule.check rule_AG_003 "   allow_all: yes" "conf/agent.yml"
    = Ok [Sample.finding] /\
  In Sample.finding [Sample.finding] /\
  exists line start stop,
    nth_error (split_lines (chars "   allow_all: yes"))
              (Finding.line_number Sample.finding - 1) = Some line /\
    In (start, stop) (finditer (PatternRule.pattern rule_AG_003) line) /\
    matches_at (PatternRule.pattern rule_AG_003) line start (stop - start) /\
    Finding.column Sample.finding = start + 1 /\
    1 <= Finding.column Sample.finding /\
    1 <= Finding.line_number Sample.finding.
Proof.
  assert (H : PatternRule.check rule_AG_003 "   allow_all: yes" "conf/agent.yml"
              = Ok [Sample.finding]) by (vm_compute; reflexivity).
  split; [exact H|]. split; [now left|].
  apply (check_column_is_match_start_plus_one _ _ _ _ Sample.finding H). now left.
Defined.

Lemma check_snippet_sample :
  PatternRule.check rule_AG_003 "   allow_all: yes" "conf/agent.yml"
    = Ok [Sample.finding] /\
  In Sample.finding [Sample.finding] /\
  exists line lead trail,
    nth_error (split_lines (chars "   allow_all: yes"))
              (Finding.line_number Sample.finding - 1) = Some line /\
    line = lead ++ strip line ++ trail /\
    Forall (fun c => isspace c = true) lead /\
    Forall (fun c => isspace c = true) trail /\
    (forall c, hd_error (strip line) = Some c -> isspace c = false) /\
    (forall c, hd_error (rev (strip line)) = Some c -> isspace c = false) /\
    Finding.snippet Sample.finding = text (firstn 100 (strip line)) /\
    String.length (Finding.snippet Sample.finding) <= 100.
Proof.
  assert (H : PatternRule.check rule_AG_003 "   allow_all: yes" "conf/agent.yml"
              = Ok [Sample.finding]) by (vm_compute; reflexivity).
  split; [exact H|]. split; [now left|].
  apply (check_snippet_is_stripped_then_truncated _ _ _ _ Sample.finding H). now left.
Defined.

Lemma check_traceable_sample :
  PatternRule.check rule_AG_003 "   allow_all: yes" "conf/agent.yml"
    = Ok [Sample.finding] /\
  forall fs f, Ok [Sample.finding] = Ok fs -> In f fs ->
    Finding.file_path f = "conf/agent.yml" /\
    Finding.rule_id f = "AG-003" /\
    Finding.severity f = HIGH /\
    Finding.category f = PERMISSIONS /\
    Finding.remediation f = Rule.remediation (PatternRule.base rule_AG_003) /\
    Finding.references f = Rule.references (PatternRule.base rule_AG_003).
Proof.
  assert (H : PatternRule.check rule_AG_003 "   allow_all: yes" "conf/agent.yml"
              = Ok [Sample.finding]) by (vm_compute; reflexivity).
  split; [exact H|].
  exact (proj2 (check_deterministic_and_traceable _ _ _ _ _ H H)).
Defined.


Lemma failing_rule_sample :
  Path.read_text (fs Sample.world) "conf/agent.yml" = Ok "   allow_all: yes" /\
  Scanner.rules Sample.scanner =
    [Scanner.Pattern rule_AG_003] ++
    Scanner.BaseRule Sample.base_rule :: [Scanner.Pattern rule_AG_005] /\
  Scanner.check (Scanner.BaseRule Sample.base_rule)
                "   allow_all: yes" "conf/agent.yml"
    = Err (Raise NotImplementedError "") /\
  exists (result : ScanResult.t) (printed : list string),
    Scanner.scan_file Sample.scanner Sample.world "conf/agent.yml"
      = (Ok result, printed) /\
    ScanResult.file_path result = "conf/agent.yml" /\
    ScanResult.findings result =
      flat_map (Scanner.contributed "   allow_all: yes" "conf/agent.yml")
               [Scanner.Pattern rule_AG_003] ++
      flat_map (Scanner.contributed "   allow_all: yes" "conf/agent.yml")
               [Scanner.Pattern rule_AG_005] /\
    Scanner.contributed "   allow_all: yes" "conf/agent.yml"
                        (Scanner.BaseRule Sample.base_rule) = [] /\
    In (Scanner.rule_error (Scanner.BaseRule Sample.base_rule)
                           (Raise NotImplementedError ""))
       printed.
Proof.
  split; [reflexivity|]. split; [reflexivity|]. split; [reflexivity|].
  apply (scan_file_survives_failing_rule Sample.scanner Sample.world
           "conf/agent.yml" "   allow_all: yes"
           [Scanner.Pattern rule_AG_003] [Scanner.Pattern rule_AG_005]
           (Scanner.BaseRule Sample.base_rule) (Raise NotImplementedError ""));
    reflexivity.
Defined.

Lemma not_found_sample :
  Path.exists_ (fs Sample.world) "conf/missing.py" = false /\
  Scanner.scan_file Sample.scanner Sample.world "conf/missing.py" =
    (Err (Raise FileNotFoundError "File not found: conf/missing.py"), []) /\
  Path.exists_ (fs Sample.world) "conf/agent.yml" = true /\
  Path.read_text (fs Sample.world) "conf/agent.yml" = Ok "   allow_all: yes" /\
  exists result,
    fst (Scanner.scan_file Sample.scanner Sample.world "conf/agent.yml")
      = Ok result.
Proof.
  split; [reflexivity|]. split.
  - exact (proj1 (scan_file_not_found_only_when_missing
                    Sample.scanner Sample.world "conf/missing.py") eq_refl).
  - split; [reflexivity|]. split; [reflexivity|].
    exact (proj2 (scan_file_not_found_only_when_missing
                    Sample.scanner Sample.world "conf/agent.yml")
                 "   allow_all: yes" eq_refl eq_refl).
Defined.


(** The sample directory: its subtree, and its scan with the registry. *)
Lemma rglob_sample :
  Path.rglob (fs Sample.world) "conf"
    = ["conf/locked.py"; "conf/agent.yml"; "conf/sub"; "conf/sub/readme.md"].
Proof. vm_compute; reflexivity. Qed.

Lemma scan_directory_sample :
  Scanner.scan_directory (Scanner.init None) Sample.world "conf"
    = ([Sample.result], ["Error scanning conf/locked.py: Permission denied"]).
Proof. vm_compute; reflexivity. Qed.



(** * Further properties *)

(** ** What [finditer] finds *)

Lemma match_at_none (r : regex) (s : list ascii) :
  match_at r s false = None <-> ends r s = [].
Proof.
  unfold match_at. destruct (ends r s) as [|n l]; simpl; [tauto|].
  split; discriminate.
Qed.

Lemma matches_here_none (r : regex) (s : list ascii) :
  fst (matches_here r s) = [] -> ends r s = [].
Proof.
  unfold matches_here. intros H. apply match_at_none.
  destruct (match_at r s false) as [[|n]|]; [|discriminate|reflexivity].
  destruct (match_at r s true) as [[|n]|]; discriminate.
Qed.

(** Where the pattern matches somewhere, [finditer] reports a match. *)
Lemma scan_complete (r : regex) :
  forall (s : list ascii) (pos i : nat),
    i <= List.length s -> ends r (skipn i s) <> [] -> scan r s pos 0 <> [].
Proof.
  induction s as [|c s IH]; intros pos i Hi Hm.
  - assert (i = 0) by (simpl in Hi; lia). subst i. simpl in *.
    destruct (matches_here r []) as [lens k] eqn:E.
    destruct lens as [|n lens]; [|discriminate].
    exfalso. apply Hm. apply matches_here_none. now rewrite E.
  - simpl. destruct (matches_here r (c :: s)) as [lens k] eqn:E.
    destruct lens as [|n lens]; [|discriminate].
    assert (Hnone : ends r (c :: s) = []).
    { apply matches_here_none. now rewrite E. }
    assert (k = 0).
    { pose proof (matches_here_shape r (c :: s)) as Hs. rewrite E in Hs.
      now inversion Hs. }
    subst k. destruct i as [|i]; [simpl in Hm; congruence|].
    simpl in *. apply (IH (S pos) i); [lia|exact Hm].
Qed.

Lemma finditer_nil_iff (r : regex) (line : list ascii) :
  finditer r line = [] <-> forall off len, ~ matches_at r line off len.
Proof.
  split.
  - intros H off len [Hoff Hin].
    apply (scan_complete r line 0 off Hoff); [|exact H].
    intros E. rewrite E in Hin. exact Hin.
  - intros H. destruct (finditer r line) as [|m ms] eqn:E; [reflexivity|].
    exfalso. assert (Hm : In m (finditer r line)) by (rewrite E; now left).
    apply finditer_sound in Hm. destruct Hm as [H1 [H2 H3]].
    apply (H (fst m) (snd m - fst m)). split; [lia|exact H3].
Qed.

Lemma enumerate_snd {A : Type} : forall (l : list A) (start : nat),
  map snd (enumerate l start) = l.
Proof.
  induction l as [|x l IH]; intros start; simpl; [reflexivity|].
  now rewrite IH.
Qed.

Lemma enumerate_member {A : Type} (l : list A) (start : nat) (x : A) :
  In x l -> exists n, In (n, x) (enumerate l start).
Proof.
  intros H. rewrite <- (enumerate_snd l start) in H.
  apply in_map_iff in H. destruct H as [[n y] [Hy Hin]]. simpl in Hy.
  subst y. now exists n.
Qed.

Lemma flat_map_nil {A B : Type} (f : A -> list B) (l : list A) :
  (forall x, In x l -> f x = []) -> flat_map f l = [].
Proof.
  induction l as [|x l IH]; intros H; simpl; [reflexivity|].
  rewrite (H x (or_introl eq_refl)), IH; [reflexivity|].
  intros y Hy. apply H. now right.
Qed.

Lemma flat_map_length {A B : Type} (f : A -> list B) (l : list A) :
  List.length (flat_map f l) = list_sum (map (fun x => List.length (f x)) l).
Proof.
  induction l as [|x l IH]; simpl; [reflexivity|].
  now rewrite length_app, IH.
Qed.

Section CheckOutcome.

Variable self : PatternRule.t.
Variables content file_path : string.

Lemma hits_nil_iff :
  PatternRule.hits self content = [] <->
  forall line, In line (split_lines (chars content)) ->
               finditer (PatternRule.pattern self) line = [].
Proof.
  unfold PatternRule.hits. split.
  - intros H line Hline.
    destruct (enumerate_member _ 1 _ Hline) as [n Hn].
    destruct (finditer (PatternRule.pattern self) line) as [|m ms] eqn:E;
      [reflexivity|].
    exfalso.
    assert (Hin : In (n, line, m)
                     (flat_map (PatternRule.hits_of_line self)
                        (enumerate (split_lines (chars content)) 1))).
    { apply in_flat_map. exists (n, line). split; [exact Hn|].
      unfold PatternRule.hits_of_line. simpl. rewrite E. now left. }
    rewrite H in Hin. exact Hin.
  - intros H. apply flat_map_nil. intros [n line] Hin.
    unfold PatternRule.hits_of_line. simpl.
    rewrite H; [reflexivity|].
    apply enumerate_In in Hin. destruct Hin as [_ Hin].
    now apply nth_error_In in Hin.
Qed.

Lemma hits_length :
  List.length (PatternRule.hits self content) =
  list_sum (map (fun line =>
                   List.length (finditer (PatternRule.pattern self) line))
                (split_lines (chars content))).
Proof.
  unfold PatternRule.hits. rewrite flat_map_length.
  rewrite <- (enumerate_snd (split_lines (chars content)) 1) at 2.
  rewrite map_map. f_equal. apply map_ext. intros [n line].
  unfold PatternRule.hits_of_line. simpl. now rewrite length_map.
Qed.

(** X1. For a message template whose replacement fields are plain (none
    carries a conversion, a format specification, an attribute or an index),
    [PatternRule.check] raises exactly when some line of the content holds a
    match and the template cannot be formatted with the category; it then
    raises what the formatting raises.  In particular a malformed template
    goes unnoticed on a content without a match. *)
Theorem check_raises_iff_match_and_bad_template (e : exn) :
  plain_fields (PatternRule.message_template self) = true ->
  (PatternRule.check self content file_path = Err e <->
   (exists line, In line (split_lines (chars content)) /\
                 finditer (PatternRule.pattern self) line <> []) /\
   format (PatternRule.message_template self)
          (RuleCategory_value (Rule.category (PatternRule.base self))) = Err e).
Proof.
  intros _.
  rewrite check_eq. fold (PatternRule.message_of self).
  destruct (PatternRule.hits self content) as [|h hs] eqn:E.
  - split; [discriminate|]. intros [[line [Hline Hm]] _].
    exfalso. apply Hm. now apply hits_nil_iff.
  - assert (Hex : exists line, In line (split_lines (chars content)) /\
                    finditer (PatternRule.pattern self) line <> []).
    { assert (Hh : In h (PatternRule.hits self content))
        by (rewrite E; now left).
      apply hits_In in Hh. destruct Hh as [_ [Hnth Hin]].
      exists (snd (fst h)). split; [now apply nth_error_In in Hnth|].
      intros Hnil. rewrite Hnil in Hin. exact Hin. }
    destruct (PatternRule.message_of self) as [msg|e']; simpl.
    + split; [discriminate|]. intros [_ H]. discriminate.
    + split; intros H.
      * inversion H; subst. split; [exact Hex|reflexivity].
      * destruct H as [_ H]. inversion H. reflexivity.
Qed.

(** X2. When [PatternRule.check] returns, the number of its findings is the
    number of matches that [finditer] reports, summed over the lines of the
    content: one finding for each occurrence, not one for each line. *)
Theorem check_counts_every_match (fs : list Finding.t) :
  PatternRule.check self content file_path = Ok fs ->
  List.length fs =
  list_sum (map (fun line =>
                   List.length (finditer (PatternRule.pattern self) line))
                (split_lines (chars content))).
Proof.
  intros H. apply check_inv in H. destruct H as [msg ->].
  rewrite length_map. apply hits_length.
Qed.

(** X3. [PatternRule.check] returns no finding exactly when the pattern
    matches at no offset of any line of the content: a line on which the
    pattern matches somewhere never goes unreported. *)
Theorem check_empty_iff_no_match_anywhere :
  PatternRule.check self content file_path = Ok [] <->
  forall line, In line (split_lines (chars content)) ->
    forall off len, ~ matches_at (PatternRule.pattern self) line off len.
Proof.
  rewrite check_eq. split.
  - intros H line Hline. apply finditer_nil_iff.
    revert line Hline. apply hits_nil_iff.
    destruct (PatternRule.hits self content) as [|h hs]; [reflexivity|].
    destruct (PatternRule.message_of self); simpl in H; discriminate.
  - intros H.
    assert (E : PatternRule.hits self content = []).
    { apply hits_nil_iff. intros line Hline. apply finditer_nil_iff.
      now apply H. }
    now rewrite E.
Qed.

End CheckOutcome.

(** ** Contents made of parts *)

Lemma chars_app (s1 s2 : string) :
  chars (s1 ++ s2)%string = chars s1 ++ chars s2.
Proof. induction s1 as [|c s1 IH]; simpl; congruence. Qed.

Lemma split_lines_not_nil (s : list ascii) : split_lines s <> [].
Proof.
  destruct s as [|c s]; simpl; [discriminate|].
  destruct (Ascii.eqb c newline); [discriminate|].
  destruct (split_lines s); discriminate.
Qed.

Lemma split_lines_app (a b : list ascii) :
  split_lines (a ++ newline :: b) = split_lines a ++ split_lines b.
Proof.
  induction a as [|c a IH]; simpl.
  - reflexivity.
  - destruct (Ascii.eqb c newline); [now rewrite IH|].
    rewrite IH. pose proof (split_lines_not_nil a) as Hn.
    destruct (split_lines a) as [|l ls]; [congruence|reflexivity].
Qed.

Lemma enumerate_app {A : Type} : forall (l1 l2 : list A) (start : nat),
  enumerate (l1 ++ l2) start =
  enumerate l1 start ++ enumerate l2 (List.length l1 + start).
Proof.
  induction l1 as [|x l1 IH]; intros l2 start; simpl; [reflexivity|].
  rewrite IH. do 3 f_equal. lia.
Qed.

Lemma enumerate_shift {A : Type} : forall (l : list A) (n start : nat),
  enumerate l (n + start) =
  map (fun p => (n + fst p, snd p)) (enumerate l start).
Proof.
  induction l as [|x l IH]; intros n start; simpl; [reflexivity|].
  rewrite <- IH. do 2 f_equal. lia.
Qed.

Section CheckMessage.

Variable self : PatternRule.t.
Variable file_path : string.

Lemma check_with_message (content msg : string) :
  PatternRule.message_of self = Ok msg ->
  PatternRule.check self content file_path =
  Ok (map (PatternRule.make self file_path msg) (PatternRule.hits self content)).
Proof.
  intros H. rewrite check_eq, H.
  destruct (PatternRule.hits self content); reflexivity.
Qed.

Lemma check_without_message (content : string) (e : exn)
  (fs : list Finding.t) :
  PatternRule.message_of self = Err e ->
  PatternRule.check self content file_path = Ok fs ->
  PatternRule.hits self content = [] /\ fs = [].
Proof.
  intros H. rewrite check_eq, H.
  destruct (PatternRule.hits self content); simpl; intros E;
    inversion E; now split.
Qed.

(** The message of a finding is the formatted template. *)
Lemma check_message (content : string) (fs : list Finding.t) (f : Finding.t) :
  PatternRule.check self content file_path = Ok fs -> In f fs ->
  PatternRule.message_of self = Ok (Finding.message f).
Proof.
  intros H Hf. destruct (PatternRule.message_of self) as [msg|e] eqn:E.
  - rewrite (check_with_message content msg E) in H. inversion H; subst.
    apply in_map_iff in Hf. destruct Hf as [h [<- _]]. reflexivity.
  - destruct (check_without_message content e fs E H) as [_ ->].
    destruct Hf.
Qed.

Lemma hits_joined (c1 c2 : string) :
  PatternRule.hits self (joined c1 c2) =
  PatternRule.hits self c1 ++
  map (fun h => (line_count c1 + fst (fst h), snd (fst h), snd h))
      (PatternRule.hits self c2).
Proof.
  unfold PatternRule.hits, joined, nl, line_count.
  rewrite chars_app. simpl. rewrite split_lines_app, enumerate_app.
  rewrite flat_map_app. f_equal.
  rewrite enumerate_shift.
  generalize (enumerate (split_lines (chars c2)) 1).
  induction l as [|[n line] l IH]; simpl; [reflexivity|].
  rewrite map_app, IH. f_equal.
  unfold PatternRule.hits_of_line. simpl. now rewrite map_map.
Qed.

(** X4. Matching is by line: the findings of two contents joined by a
    newline are the findings of the first followed by the findings of the
    second, moved down by the number of lines of the first.  No match spans
    the newline, and no finding is lost or added by the joining. *)
Theorem check_of_joined_contents (c1 c2 : string)
  (fs1 fs2 : list Finding.t) :
  PatternRule.check self c1 file_path = Ok fs1 ->
  PatternRule.check self c2 file_path = Ok fs2 ->
  PatternRule.check self (joined c1 c2) file_path =
  Ok (fs1 ++ map (shift_lines (line_count c1)) fs2).
Proof.
  intros H1 H2. destruct (PatternRule.message_of self) as [msg|e] eqn:E.
  - rewrite (check_with_message c1 msg E) in H1.
    rewrite (check_with_message c2 msg E) in H2.
    rewrite (check_with_message (joined c1 c2) msg E).
    inversion H1; inversion H2; subst.
    rewrite hits_joined, map_app, !map_map. reflexivity.
  - destruct (check_without_message _ e _ E H1) as [E1 ->].
    destruct (check_without_message _ e _ E H2) as [E2 ->].
    rewrite check_eq, hits_joined, E1, E2. reflexivity.
Qed.

End CheckMessage.

Lemma default_message (c : RuleCategory) :
  format PatternRule.default_message_template (RuleCategory_value c) =
  Ok ("Potential " ++ RuleCategory_value c ++ " issue found")%string.
Proof. destruct c; reflexivity. Qed.

(** X5. A pattern rule constructed without a message template reports, in
    every finding, the message [Potential <category> issue found] with the
    value of its category; one constructed with a template reports the
    template formatted with that value.  The name of the rule is the
    [rule_name] of the finding. *)
Theorem constructed_rule_message
  (attrs : Rule.t) (pattern_text : string) (template : option string)
  (rule : PatternRule.t) (content file_path : string)
  (fs : list Finding.t) (f : Finding.t) :
  PatternRule.init attrs pattern_text template = Ok rule ->
  PatternRule.check rule content file_path = Ok fs ->
  In f fs ->
  match template with
  | Some m =>
      format m (RuleCategory_value (Rule.category attrs))
        = Ok (Finding.message f)
  | None =>
      Finding.message f =
      ("Potential " ++ RuleCategory_value (Rule.category attrs)
       ++ " issue found")%string
  end /\
  Finding.rule_name f = Rule.name attrs.
Proof.
  intros Hinit Hck Hf.
  pose proof (check_message rule file_path content fs f Hck Hf) as Hmsg.
  unfold PatternRule.init in Hinit.
  destruct (Compile.compile pattern_text) as [r|]; [|discriminate].
  inversion Hinit; subst rule; clear Hinit.
  unfold PatternRule.message_of in Hmsg. simpl in Hmsg.
  split.
  - destruct template as [m|]; [exact Hmsg|].
    rewrite default_message in Hmsg. now inversion Hmsg.
  - apply check_inv in Hck. destruct Hck as [msg ->].
    apply in_map_iff in Hf. destruct Hf as [h [<- _]]. reflexivity.
Qed.

(** ** Findings and the case of the content *)

Lemma newline_fold (a b : ascii) :
  tolower a = tolower b -> Ascii.eqb a newline = Ascii.eqb b newline.
Proof.
  intros H. now rewrite <- (newline_tolower a), <- (newline_tolower b), H.
Qed.

Lemma split_lines_fold (s s' : list ascii) :
  case_variant s s' -> Forall2 case_variant (split_lines s) (split_lines s').
Proof.
  induction 1 as [|a b s s' Hab Hs IH]; simpl.
  - repeat constructor.
  - rewrite (newline_fold a b Hab).
    destruct (Ascii.eqb b newline); [constructor; [constructor|exact IH]|].
    destruct IH as [|l l' ls ls' Hl Hls]; repeat constructor; assumption.
Qed.

Lemma hits_fold (self : PatternRule.t) (ls ls' : list (list ascii)) :
  Forall2 case_variant ls ls' ->
  forall start,
    map hit_place (flat_map (PatternRule.hits_of_line self) (enumerate ls start))
    = map hit_place
          (flat_map (PatternRule.hits_of_line self) (enumerate ls' start)).
Proof.
  induction 1 as [|l l' ls ls' Hl Hls IH]; intros start; simpl;
    [reflexivity|].
  rewrite !map_app, IH. f_equal.
  unfold PatternRule.hits_of_line. simpl. rewrite !map_map. simpl.
  destruct (matching_ignores_case (PatternRule.pattern self) l l' Hl)
    as [_ ->]. reflexivity.
Qed.

Lemma make_position (self : PatternRule.t) (file_path msg : string)
  (hs : list PatternRule.hit) :
  map position (map (PatternRule.make self file_path msg) hs) =
  map (fun p => (fst p, fst (snd p) + 1)) (map hit_place hs).
Proof. rewrite !map_map. reflexivity. Qed.

Lemma check_positions_fold
  (self : PatternRule.t) (content content' file_path : string)
  (fs : list Finding.t) :
  case_variant (chars content) (chars content') ->
  PatternRule.check self content file_path = Ok fs ->
  exists fs',
    PatternRule.check self content' file_path = Ok fs' /\
    map position fs' = map position fs.
Proof.
  intros Hv Hck.
  pose proof (hits_fold self _ _ (split_lines_fold _ _ Hv) 1) as Hh.
  fold (PatternRule.hits self content) in Hh.
  fold (PatternRule.hits self content') in Hh.
  destruct (PatternRule.message_of self) as [msg|e] eqn:E.
  - rewrite (check_with_message self file_path content msg E) in Hck.
    inversion Hck; subst. eexists.
    split; [apply (check_with_message self file_path content' msg E)|].
    now rewrite !make_position, Hh.
  - destruct (check_without_message self file_path content e fs E Hck)
      as [E1 ->].
    exists []. split; [|reflexivity].
    rewrite check_eq. rewrite E1 in Hh. simpl in Hh.
    destruct (PatternRule.hits self content'); [reflexivity|discriminate].
Qed.

(** X6. For a rule of the registry, on contents of characters below 256:
    two contents of the same length that differ character for character in
    the case of letters only (so not one in which a change of case has turned
    a sharp s into two letters) have as many findings of the rule, on the
    same lines and at the same columns, in the same order; and the check of
    such a rule returns on both. *)
Theorem check_positions_ignore_case
  (self : PatternRule.t) (content content' file_path : string) :
  In self RULES ->
  case_variant (chars content) (chars content') ->
  exists fs fs',
    PatternRule.check self content file_path = Ok fs /\
    PatternRule.check self content' file_path = Ok fs' /\
    List.length fs' = List.length fs /\
    map position fs' = map position fs.
Proof.
  intros Hin Hv.
  destruct (registry_check_returns self content file_path Hin) as [fs Hck].
  destruct (check_positions_fold self content content' file_path fs Hv Hck)
    as [fs' [Hck' Hpos]].
  exists fs, fs'. split; [exact Hck|]. split; [exact Hck'|].
  split; [|exact Hpos].
  rewrite <- (length_map position fs'), Hpos. apply length_map.
Qed.

(** ** The least length of a match *)

Lemma rep_min (a : atom) (s : list ascii) :
  forall mn mx n, In n (rep a mn mx s) -> mn <= n.
Proof.
  assert (Hstop : forall mn n, In n (if mn =? 0 then [0] else []) -> mn <= n).
  { intros mn n. destruct (Nat.eqb_spec mn 0); simpl; [lia|tauto]. }
  induction s as [|c s IH]; intros mn mx n; simpl; [apply Hstop|].
  destruct (atom_match a c && can_take mx); [|apply Hstop].
  rewrite in_app_iff, in_map_iff. intros [[k [<- Hk]]|H].
  - apply IH in Hk. lia.
  - now apply Hstop.
Qed.

Lemma ends_min : forall (r : regex) (s : list ascii) (n : nat),
  In n (ends r s) -> min_len r <= n.
Proof.
  induction r as [|a|a mn mx|r1 IH1 r2 IH2|r1 IH1 r2 IH2|r1 IH1];
    intros s n; simpl.
  - lia.
  - destruct s as [|c s]; simpl; [tauto|].
    destruct (atom_match a c); simpl; [|tauto]. lia.
  - apply rep_min.
  - rewrite in_flat_map. intros [k [Hk Hn]].
    apply in_map_iff in Hn. destruct Hn as [j [<- Hj]].
    apply IH1 in Hk. apply IH2 in Hj. lia.
  - rewrite in_app_iff. intros [H|H]; [apply IH1 in H|apply IH2 in H]; lia.
  - apply IH1.
Qed.

(** X7. From the column of a finding, its line holds at least as many
    characters as the shortest text that the pattern of the rule matches; for
    the rules of the registry these are 10, 28, 9, 14 and 6 characters, so a
    shorter line yields no finding of the rule. *)
Theorem finding_leaves_room_for_a_match
  (self : PatternRule.t) (content file_path : string)
  (fs : list Finding.t) (f : Finding.t) :
  PatternRule.check self content file_path = Ok fs ->
  In f fs ->
  (exists line,
     nth_error (split_lines (chars content)) (Finding.line_number f - 1)
       = Some line /\
     Finding.column f - 1 + min_len (PatternRule.pattern self)
       <= List.length line) /\
  map (fun rule => min_len (PatternRule.pattern rule)) RULES
    = [10; 28; 9; 14; 6].
Proof.
  intros Hck Hf. split; [|reflexivity].
  apply check_inv in Hck. destruct Hck as [msg ->].
  apply in_map_iff in Hf. destruct Hf as [[[n line] [start stop]] [<- Hh]].
  apply hits_In in Hh. simpl in Hh. destruct Hh as [Hn [Hline Hm]].
  exists line. split; [exact Hline|]. simpl.
  apply finditer_sound in Hm. simpl in Hm. destruct Hm as [H1 [H2 H3]].
  apply ends_min in H3. lia.
Qed.

(** ** What [scan_file] raises and what it reports *)

Section ScanFile.

Variable self : Scanner.t.
Variable w : World.

(** X9. When the rules of a scanner are pattern rules or instances of the
    base class, every finding of a scanned file carries the path of the file
    and the identifier, name, category, severity, remediation and references
    of one pattern rule of the scanner. *)
Theorem scan_file_findings_traceable
  (file_path : string) (result : ScanResult.t) (printed : list string)
  (f : Finding.t) :
  Forall is_builtin_class (Scanner.rules self) ->
  Scanner.scan_file self w file_path = (Ok result, printed) ->
  In f (ScanResult.findings result) ->
  ScanResult.file_path result = file_path /\
  Finding.file_path f = file_path /\
  exists rule,
    In (Scanner.Pattern rule) (Scanner.rules self) /\
    Finding.rule_id f = Rule.rule_id (PatternRule.base rule) /\
    Finding.rule_name f = Rule.name (PatternRule.base rule) /\
    Finding.category f = Rule.category (PatternRule.base rule) /\
    Finding.severity f = Rule.severity (PatternRule.base rule) /\
    Finding.remediation f = Rule.remediation (PatternRule.base rule) /\
    Finding.references f = Rule.references (PatternRule.base rule).
Proof.
  intros Hcls Hscan Hf.
  destruct (scan_file_ok_inv self w _ _ _ Hscan) as [content Hread].
  rewrite (scan_file_readable self w _ _ Hread) in Hscan.
  inversion Hscan; subst; clear Hscan. simpl in *.
  split; [reflexivity|].
  apply in_flat_map in Hf. destruct Hf as [r [Hr Hf]].
  rewrite Forall_forall in Hcls. specialize (Hcls r Hr).
  unfold Scanner.contributed in Hf.
  destruct r as [b|rule|b chk]; simpl in *; [destruct Hf| |destruct Hcls].
  destruct (PatternRule.check rule content file_path) as [fs|e] eqn:E;
    [|destruct Hf].
  apply check_inv in E. destruct E as [msg ->].
  apply in_map_iff in Hf. destruct Hf as [h [<- _]].
  split; [reflexivity|]. exists rule. repeat split. exact Hr.
Qed.

End ScanFile.



(** ** Directories *)

Lemma registry_reports_nothing (content file_path : string) :
  flat_map (Scanner.reported content file_path) (map Scanner.Pattern RULES) = [].
Proof.
  apply flat_map_nil. intros r Hr. apply in_map_iff in Hr.
  destruct Hr as [rule [<- Hrule]]. unfold Scanner.reported. simpl.
  destruct (registry_check_returns rule content file_path Hrule) as [fs ->].
  reflexivity.
Qed.

Lemma registry_scan_file_prints_nothing (w : World) (file_path : string) :
  snd (Scanner.scan_file (Scanner.init None) w file_path) = [].
Proof.
  unfold Scanner.scan_file.
  destruct (Path.exists_ (fs w) file_path); simpl; [|reflexivity].
  destruct (Path.read_text (fs w) file_path) as [content|e]; [|reflexivity].
  simpl. rewrite run_rules_eq. simpl. apply registry_reports_nothing.
Qed.

Section Directory.

Variable self : Scanner.t.
Variable w : World.

Lemma scan_file_eligible (p : string) :
  Scanner.eligible (fs w) p = true ->
  fst (Scanner.scan_file self w p) =
  match Path.read_text (fs w) p with
  | Ok content =>
      Ok {| ScanResult.file_path := p;
            ScanResult.findings :=
              flat_map (Scanner.contributed content p) (Scanner.rules self);
            ScanResult.scanned_at := utcnow_isoformat (clock w p);
            ScanResult.duration_ms := elapsed_ms (clock w p) |}
  | Err e => Err e
  end.
Proof.
  intros Hel.
  assert (Hex : Path.exists_ (fs w) p = true).
  { apply is_file_exists. now apply eligible_iff in Hel. }
  destruct (Path.read_text (fs w) p) as [content|e] eqn:Hr.
  - now rewrite (scan_file_readable self w _ _ Hr).
  - now rewrite (scan_file_unreadable self w _ _ Hex Hr).
Qed.

Lemma scan_directory_paths (directory : string) :
  map ScanResult.file_path (fst (Scanner.scan_directory self w directory)) =
  List.filter (fun p => Scanner.eligible (fs w) p && readable (fs w) p)
              (Path.rglob (fs w) directory).
Proof.
  rewrite scan_directory_eq.
  induction (Path.rglob (fs w) directory) as [|p ps IH]; simpl;
    [reflexivity|].
  destruct (Scanner.eligible (fs w) p) eqn:Hel; simpl; [|exact IH].
  rewrite map_app, IH. unfold Scanner.scanned, readable.
  rewrite (scan_file_eligible p Hel).
  destruct (Path.read_text (fs w) p); reflexivity.
Qed.

(** X10. The results of [scan_directory] are, in the order of the
    traversal, one for each path of the subtree that is a regular file with
    one of the four extensions and can be read: no such file is left out,
    none is scanned twice, and no other path has a result.  Each result is
    the one that [scan_file] returns for its path: the other files of the
    directory have no part in it. *)
Theorem scan_directory_result_paths (directory : string) :
  map ScanResult.file_path (fst (Scanner.scan_directory self w directory)) =
  List.filter (fun p => Scanner.eligible (fs w) p && readable (fs w) p)
              (Path.rglob (fs w) directory) /\
  forall result,
    In result (fst (Scanner.scan_directory self w directory)) ->
    fst (Scanner.scan_file self w (ScanResult.file_path result)) = Ok result.
Proof.
  split; [apply scan_directory_paths|].
  intros result Hin. rewrite scan_directory_eq in Hin.
  apply in_flat_map in Hin. destruct Hin as [p [Hp Hin]].
  apply filter_In in Hp. destruct Hp as [_ Hel].
  unfold Scanner.scanned in Hin.
  pose proof (scan_file_eligible p Hel) as Hscan.
  destruct (Path.read_text (fs w) p) as [content|e];
    rewrite Hscan in Hin; simpl in Hin; [|destruct Hin].
  destruct Hin as [<-|[]]. simpl. exact Hscan.
Qed.


End Directory.

Lemma registry_visit_prints (w : World) :
  forall (ps : list string) (st : list ScanResult.t * list string),
    snd (fold_left (Scanner.visit (Scanner.init None) w) ps st) =
    snd st ++ flat_map (read_failure (fs w))
                       (List.filter (Scanner.eligible (fs w)) ps).
Proof.
  induction ps as [|p ps IH]; intros [rs out]; cbn [fold_left List.filter].
  - cbn. now rewrite app_nil_r.
  - rewrite IH. unfold Scanner.visit.
    destruct (Scanner.eligible (fs w) p) eqn:Hel; [|reflexivity].
    pose proof (scan_file_eligible (Scanner.init None) w p Hel) as Hf.
    pose proof (registry_scan_file_prints_nothing w p) as Hp.
    cbn [flat_map]. unfold read_failure at 2.
    destruct (Scanner.scan_file (Scanner.init None) w p)
      as [[res|e] printed]; cbn [fst snd] in *; subst printed;
      destruct (Path.read_text (fs w) p) as [content|e'];
      try discriminate.
    + now rewrite app_nil_r.
    + inversion Hf; subst. cbn [app]. now rewrite <- app_assoc.
Qed.

(** X12. The [check] of a rule of the registry never raises, so a scan with
    the registry prints no rule error: [scan_file] prints nothing, and
    [scan_directory] prints exactly one line for each eligible file that
    cannot be read, in the order of the traversal. *)
Theorem registry_scan_prints_read_failures_only
  (w : World) (path : string) :
  snd (Scanner.scan_file (Scanner.init None) w path) = [] /\
  snd (Scanner.scan_directory (Scanner.init None) w path) =
  flat_map (read_failure (fs w))
           (List.filter (Scanner.eligible (fs w)) (Path.rglob (fs w) path)).
Proof.
  split; [apply registry_scan_file_prints_nothing|].
  unfold Scanner.scan_directory. now rewrite registry_visit_prints.
Qed.

(** ** The names of the files that a directory scan reads *)

Lemma name_chars_tail (s : list ascii) :
  exists dir, s = dir ++ Path.name_chars s.
Proof.
  induction s as [|c s [dir IH]]; simpl; [now exists []|].
  destruct (existsb (Ascii.eqb Path.slash) s).
  - exists (c :: dir). simpl. congruence.
  - destruct (Ascii.eqb c Path.slash); [now exists [c]|now exists []].
Qed.

Lemma name_chars_no_slash (s : list ascii) :
  ~ In Path.slash (Path.name_chars s).
Proof.
  induction s as [|c s IH]; simpl; [tauto|].
  destruct (existsb (Ascii.eqb Path.slash) s) eqn:E; [exact IH|].
  assert (Hs : ~ In Path.slash s).
  { intros H. assert (existsb (Ascii.eqb Path.slash) s = true).
    { apply existsb_exists. exists Path.slash. split; [exact H|].
      apply Ascii.eqb_refl. }
    congruence. }
  destruct (Ascii.eqb_spec c Path.slash) as [->|Hc]; [exact Hs|].
  simpl. intros [H|H]; [congruence|tauto].
Qed.

Lemma suffix_shape (p : string) :
  Path.suffix p <> "" ->
  exists i, 0 < i /\ i < List.length (Path.name_chars (chars p)) /\
            Path.suffix p = text (skipn i (Path.name_chars (chars p))).
Proof.
  unfold Path.suffix.
  destruct (Path.rfind_from Path.dot (Path.name_chars (chars p)) 0)
    as [i|]; [|congruence].
  destruct (Nat.ltb_spec 0 i); simpl; [|congruence].
  destruct (Nat.ltb_spec i (List.length (Path.name_chars (chars p)) - 1));
    [|congruence].
  intros _. exists i. repeat split; [assumption|lia].
Qed.

(** X13. A path that a directory scan reads is a regular file whose name is
    a stem of at least one character followed by exactly [.yaml], [.yml],
    [.json] or [.py], in that spelling: a file named [.py] or [x.PY] is not
    read. *)
Theorem eligible_name_has_stem_and_extension
  (fsys : FileSystem) (p : string) :
  Scanner.eligible fsys p = true ->
  Path.is_file fsys p = true /\
  exists dir stem ext,
    chars p = dir ++ stem ++ chars ext /\
    stem <> [] /\
    ~ In Path.slash (stem ++ chars ext) /\
    In ext [".yaml"; ".yml"; ".json"; ".py"].
Proof.
  unfold Scanner.eligible. rewrite andb_true_iff, existsb_exists.
  intros [Hfile [ext [Hext Heq]]]. apply String.eqb_eq in Heq.
  split; [exact Hfile|].
  assert (Hne : Path.suffix p <> "").
  { rewrite Heq. simpl in Hext.
    destruct Hext as [<-|[<-|[<-|[<-|[]]]]]; discriminate. }
  destruct (suffix_shape p Hne) as [i [Hi [Hlen Hsuf]]].
  destruct (name_chars_tail (chars p)) as [dir Hdir].
  exists dir, (firstn i (Path.name_chars (chars p))), ext.
  assert (Hsplit : firstn i (Path.name_chars (chars p)) ++ chars ext
                   = Path.name_chars (chars p)).
  { rewrite <- Heq, Hsuf, list_ascii_of_string_of_list_ascii.
    apply firstn_skipn. }
  repeat split.
  - now rewrite Hsplit.
  - intros E. apply (f_equal (@List.length ascii)) in E.
    rewrite length_firstn in E. simpl in E. lia.
  - rewrite Hsplit. apply name_chars_no_slash.
  - exact Hext.
Qed.

(** ** The [scan] command *)

Lemma set_findings_same (r : ScanResult.t) :
  Cli.set_findings r (ScanResult.findings r) = r.
Proof. now destruct r. Qed.

Lemma filter_all {A : Type} (l : list A) : List.filter (fun _ => true) l = l.
Proof. induction l as [|x l IH]; simpl; congruence. Qed.

Lemma retained_info (findings : list Finding.t) :
  Cli.retained INFO findings = findings.
Proof.
  rewrite retained_eq. induction findings as [|f fs IH]; [reflexivity|].
  cbn [List.filter]. rewrite IH. now destruct (Finding.severity f).
Qed.





(** X15. Whatever the severity option, the filter keeps every result, in
    order and with its path and times; it only removes findings, keeping the
    others in order, by one test applied to all results.  Without the option,
    and with the least severity [info], it keeps everything. *)
Theorem severity_filter_only_prunes_findings
  (severity : option string) (results reported : list ScanResult.t) :
  Cli.filter_by_severity severity results = Ok reported ->
  (exists keep : Finding.t -> bool,
     reported =
     map (fun r => Cli.set_findings r
                     (List.filter keep (ScanResult.findings r)))
         results) /\
  map ScanResult.file_path reported = map ScanResult.file_path results /\
  (severity = None \/ severity = Some "info" -> reported = results).
Proof.
  intros H.
  assert (Hid : map (fun r => Cli.set_findings r
                                (List.filter (fun _ => true)
                                             (ScanResult.findings r)))
                    results = results).
  { rewrite <- (map_id results) at 2. apply map_ext. intros r.
    now rewrite filter_all, set_findings_same. }
  assert (Hkeep : exists keep : Finding.t -> bool,
             reported =
             map (fun r => Cli.set_findings r
                             (List.filter keep (ScanResult.findings r)))
                 results).
  { unfold Cli.filter_by_severity in H.
    destruct severity as [v|]; [|inversion H; subst; eexists; now rewrite Hid].
    destruct v as [|c v]; [inversion H; subst; eexists; now rewrite Hid|].
    destruct (Cli.Severity_of_value (String c v)) as [x|e]; [|discriminate].
    simpl in H. destruct (Cli.allowed_for x) as [allowed|e]; [|discriminate].
    simpl in H. inversion H; subst. eexists. reflexivity. }
  split; [exact Hkeep|]. split.
  - destruct Hkeep as [keep ->]. rewrite map_map. reflexivity.
  - intros [-> | ->].
    + now inversion H.
    + change (Some "info") with (Some (Severity_value INFO)) in H.
      rewrite filter_by_severity_eq in H. inversion H; subst.
      rewrite <- (map_id results) at 2. apply map_ext. intros r.
      now rewrite retained_info, set_findings_same.
Qed.


(** X17. A regular file given to [scan] is scanned whatever its extension,
    and gives exactly one result; the same file met in a directory scan has
    no result unless its extension is one of the four. *)
Theorem single_file_is_scanned_whatever_its_extension
  (w : World) (path content : string) :
  Path.is_file (fs w) path = true ->
  Path.read_text (fs w) path = Ok content ->
  (exists result,
     Command.collect w path = (Ok [result], []) /\
     ScanResult.file_path result = path /\
     ScanResult.findings result =
       flat_map (Scanner.contributed content path)
                (map Scanner.Pattern RULES)) /\
  (Scanner.eligible (fs w) path = false ->
   forall self directory,
     ~ In path (map ScanResult.file_path
                    (fst (Scanner.scan_directory self w directory)))).
Proof.
  intros Hfile Hr. split.
  - unfold Command.collect. rewrite Hfile.
    rewrite (scan_file_readable (Scanner.init None) w _ _ Hr).
    change (Scanner.rules (Scanner.init None)) with (map Scanner.Pattern RULES).
    rewrite registry_reports_nothing.
    eexists. split; [reflexivity|]. split; reflexivity.
  - intros Hel self directory Hin.
    rewrite scan_directory_paths in Hin. apply filter_In in Hin.
    destruct Hin as [_ Hin]. rewrite Hel in Hin. discriminate.
Qed.

(** ** Serialisation *)

Lemma Severity_value_inj (a b : Severity) :
  Severity_value a = Severity_value b -> a = b.
Proof. destruct a, b; simpl; intros H; try reflexivity; discriminate. Qed.

Lemma RuleCategory_value_inj (a b : RuleCategory) :
  RuleCategory_value a = RuleCategory_value b -> a = b.
Proof. destruct a, b; simpl; intros H; try reflexivity; discriminate. Qed.

Lemma map_JString_inj : forall (l1 l2 : list string),
  map JString l1 = map JString l2 -> l1 = l2.
Proof.
  induction l1 as [|a l1 IH]; intros [|b l2] H; simpl in H;
    try discriminate; [reflexivity|].
  inversion H. f_equal. now apply IH.
Qed.

Lemma finding_to_dict_inj (f g : Finding.t) :
  finding_to_dict f = finding_to_dict g -> without_path f = without_path g.
Proof.
  destruct f, g. unfold finding_to_dict, without_path. simpl.
  intros H. inversion H.
  repeat match goal with
         | E : Severity_value _ = Severity_value _ |- _ =>
             apply Severity_value_inj in E
         | E : RuleCategory_value _ = RuleCategory_value _ |- _ =>
             apply RuleCategory_value_inj in E
         | E : Z.of_nat _ = Z.of_nat _ |- _ => apply Nat2Z.inj in E
         | E : map JString _ = map JString _ |- _ =>
             apply map_JString_inj in E
         end.
  congruence.
Qed.

Lemma finding_to_dict_without_path (f : Finding.t) :
  finding_to_dict (without_path f) = finding_to_dict f.
Proof. reflexivity. Qed.

Lemma map_determines {A B C : Type} (f : A -> B) (g : A -> C) :
  (forall a b, f a = f b -> g a = g b) ->
  forall l1 l2, map f l1 = map f l2 -> map g l1 = map g l2.
Proof.
  intros Hfg. induction l1 as [|a l1 IH]; intros [|b l2] H; simpl in H;
    try discriminate; [reflexivity|].
  injection H as Hhd Htl. simpl. f_equal; [now apply Hfg|now apply IH].
Qed.

Lemma map_finding_to_dict_inj (l1 l2 : list Finding.t) :
  map finding_to_dict l1 = map finding_to_dict l2 ->
  map without_path l1 = map without_path l2.
Proof. apply map_determines. exact finding_to_dict_inj. Qed.

(** X18. [to_dict] keeps everything of a result but the file path of each
    finding: two results have the same dictionary exactly when they differ at
    most in the file paths of their findings. *)
Theorem to_dict_loses_only_finding_paths (r1 r2 : ScanResult.t) :
  to_dict r1 = to_dict r2 <->
  without_finding_paths r1 = without_finding_paths r2.
Proof.
  split.
  - destruct r1, r2. unfold to_dict, without_finding_paths, Cli.set_findings.
    simpl. intros H. inversion H.
    f_equal. now apply map_finding_to_dict_inj.
  - intros H.
    assert (E : forall r, to_dict (without_finding_paths r) = to_dict r).
    { intros r. unfold to_dict, without_finding_paths. simpl.
      rewrite map_map. reflexivity. }
    rewrite <- (E r1), <- (E r2), H. reflexivity.
Qed.

(** ** The further properties at sample inputs *)

Lemma check_counts_sample :
  PatternRule.check Demo.plain_rule "allow_all" "a.yml"
    = Ok [Demo.plain_finding] /\
  List.length [Demo.plain_finding] =
  list_sum (map (fun line =>
                   List.length (finditer (PatternRule.pattern Demo.plain_rule)
                                         line))
                (split_lines (chars "allow_all"))).
Proof.
  assert (H : PatternRule.check Demo.plain_rule "allow_all" "a.yml"
              = Ok [Demo.plain_finding]) by (vm_compute; reflexivity).
  split; [exact H|].
  exact (check_counts_every_match Demo.plain_rule "allow_all" "a.yml" _ H).
Defined.

Lemma joined_contents_sample :
  PatternRule.check Demo.plain_rule "allow_all" "a.yml"
    = Ok [Demo.plain_finding] /\
  PatternRule.check Demo.plain_rule "x unrestricted" "a.yml"
    = Ok [Demo.other_finding] /\
  PatternRule.check Demo.plain_rule (joined "allow_all" "x unrestricted") "a.yml"
    = Ok [Demo.plain_finding; Demo.second_finding].
Proof.
  assert (H1 : PatternRule.check Demo.plain_rule "allow_all" "a.yml"
               = Ok [Demo.plain_finding]) by (vm_compute; reflexivity).
  assert (H2 : PatternRule.check Demo.plain_rule "x unrestricted" "a.yml"
               = Ok [Demo.other_finding]) by (vm_compute; reflexivity).
  split; [exact H1|]. split; [exact H2|].
  exact (check_of_joined_contents Demo.plain_rule "a.yml"
           "allow_all" "x unrestricted" _ _ H1 H2).
Defined.

Lemma constructed_rule_sample :
  PatternRule.init Demo.attrs Patterns.source_AG_003 None
    = Ok Demo.plain_rule /\
  PatternRule.check Demo.plain_rule "allow_all" "a.yml"
    = Ok [Demo.plain_finding] /\
  In Demo.plain_finding [Demo.plain_finding] /\
  Finding.message Demo.plain_finding = "Potential permissions issue found" /\
  Finding.rule_name Demo.plain_finding = "Unrestricted Tool Permissions".
Proof.
  assert (H0 : PatternRule.init Demo.attrs Patterns.source_AG_003 None
               = Ok Demo.plain_rule) by (vm_compute; reflexivity).
  assert (H1 : PatternRule.check Demo.plain_rule "allow_all" "a.yml"
               = Ok [Demo.plain_finding]) by (vm_compute; reflexivity).
  assert (H2 : In Demo.plain_finding [Demo.plain_finding]) by (now left).
  split; [exact H0|]. split; [exact H1|]. split; [exact H2|].
  exact (constructed_rule_message Demo.attrs Patterns.source_AG_003 None
           Demo.plain_rule "allow_all" "a.yml" _ _ H0 H1 H2).
Defined.

Lemma bad_template_sample :
  plain_fields (PatternRule.message_template Faulty.rule) = true /\
  PatternRule.check Faulty.rule "tools: allow_all" "a.yml"
    = Err (Raise KeyError "'severity'") /\
  PatternRule.check Faulty.rule "tools: none" "a.yml" = Ok [].
Proof.
  assert (Hplain : plain_fields (PatternRule.message_template Faulty.rule)
                   = true) by (vm_compute; reflexivity).
  split; [exact Hplain|]. split; [|vm_compute; reflexivity].
  apply (proj2 (check_raises_iff_match_and_bad_template
                  Faulty.rule "tools: allow_all" "a.yml"
                  (Raise KeyError "'severity'") Hplain)).
  split; [|vm_compute; reflexivity].
  exists (chars "tools: allow_all").
  split; [now left|vm_compute; discriminate].
Defined.

Lemma positions_ignore_case_sample :
  In rule_AG_003 RULES /\
  case_variant (chars "x: Allow_All") (chars "X: aLLOW_aLL") /\
  PatternRule.check rule_AG_003 "x: Allow_All" "a.yml"
    = Ok [PatternRule.make rule_AG_003 "a.yml"
            "Excessive permissions detected: permissions"
            (1, chars "x: Allow_All", (3, 12))] /\
  exists fs fs',
    PatternRule.check rule_AG_003 "x: Allow_All" "a.yml" = Ok fs /\
    PatternRule.check rule_AG_003 "X: aLLOW_aLL" "a.yml" = Ok fs' /\
    List.length fs' = List.length fs /\
    map position fs' = map position fs.
Proof.
  assert (Hin : In rule_AG_003 RULES) by (right; right; now left).
  assert (H0 : case_variant (chars "x: Allow_All") (chars "X: aLLOW_aLL"))
    by (repeat constructor).
  split; [exact Hin|]. split; [exact H0|].
  split; [vm_compute; reflexivity|].
  exact (check_positions_ignore_case rule_AG_003
           "x: Allow_All" "X: aLLOW_aLL" "a.yml" Hin H0).
Defined.



Lemma room_for_a_match_sample :
  PatternRule.check Demo.plain_rule "allow_all" "a.yml"
    = Ok [Demo.plain_finding] /\
  In Demo.plain_finding [Demo.plain_finding] /\
  exists line,
    nth_error (split_lines (chars "allow_all"))
              (Finding.line_number Demo.plain_finding - 1) = Some line /\
    Finding.column Demo.plain_finding - 1
      + min_len (PatternRule.pattern Demo.plain_rule) <= List.length line.
Proof.
  assert (H1 : PatternRule.check Demo.plain_rule "allow_all" "a.yml"
               = Ok [Demo.plain_finding]) by (vm_compute; reflexivity).
  assert (H2 : In Demo.plain_finding [Demo.plain_finding]) by (now left).
  split; [exact H1|]. split; [exact H2|].
  exact (proj1 (finding_leaves_room_for_a_match Demo.plain_rule
                  "allow_all" "a.yml" _ _ H1 H2)).
Defined.

Lemma traceable_sample :
  Forall is_builtin_class (Scanner.rules Sample.scanner) /\
  Scanner.scan_file Sample.scanner Sample.world "conf/agent.yml"
    = (Ok Sample.result, ["Error running rule X-001: "]) /\
  In Sample.finding (ScanResult.findings Sample.result) /\
  Finding.file_path Sample.finding = "conf/agent.yml" /\
  exists rule,
    In (Scanner.Pattern rule) (Scanner.rules Sample.scanner) /\
    Finding.rule_id Sample.finding = Rule.rule_id (PatternRule.base rule) /\
    Finding.rule_name Sample.finding = Rule.name (PatternRule.base rule) /\
    Finding.category Sample.finding = Rule.category (PatternRule.base rule) /\
    Finding.severity Sample.finding = Rule.severity (PatternRule.base rule) /\
    Finding.remediation Sample.finding
      = Rule.remediation (PatternRule.base rule) /\
    Finding.references Sample.finding
      = Rule.references (PatternRule.base rule).
Proof.
  assert (H0 : Forall is_builtin_class (Scanner.rules Sample.scanner))
    by (repeat constructor).
  assert (H1 : Scanner.scan_file Sample.scanner Sample.world "conf/agent.yml"
               = (Ok Sample.result, ["Error running rule X-001: "]))
    by (vm_compute; reflexivity).
  assert (H2 : In Sample.finding (ScanResult.findings Sample.result))
    by (now left).
  split; [exact H0|]. split; [exact H1|]. split; [exact H2|].
  exact (proj2 (scan_file_findings_traceable Sample.scanner Sample.world
                  "conf/agent.yml" _ _ _ H0 H1 H2)).
Defined.


Lemma eligible_name_sample :
  Scanner.eligible (fs Sample.world) "conf/agent.yml" = true /\
  exists dir stem ext,
    chars "conf/agent.yml" = dir ++ stem ++ chars ext /\
    stem <> [] /\
    ~ In Path.slash (stem ++ chars ext) /\
    In ext [".yaml"; ".yml"; ".json"; ".py"].
Proof.
  assert (H : Scanner.eligible (fs Sample.world) "conf/agent.yml" = true)
    by reflexivity.
  split; [exact H|].
  exact (proj2 (eligible_name_has_stem_and_extension (fs Sample.world) _ H)).
Defined.


Lemma filter_prunes_sample :
  Cli.filter_by_severity (Some "high") [Sample.result; Demo.settings_result]
    = Ok [Sample.result; Demo.settings_result] /\
  map ScanResult.file_path [Sample.result; Demo.settings_result]
    = ["conf/agent.yml"; "app/settings.json"].
Proof.
  assert (H : Cli.filter_by_severity (Some "high")
                [Sample.result; Demo.settings_result]
              = Ok [Sample.result; Demo.settings_result])
    by (vm_compute; reflexivity).
  split; [exact H|].
  exact (proj1 (proj2 (severity_filter_only_prunes_findings _ _ _ H))).
Defined.

Lemma single_file_sample :
  Path.is_file (fs Demo.world) "app/notes.txt" = true /\
  Path.read_text (fs Demo.world) "app/notes.txt" = Ok "allow_all" /\
  Scanner.eligible (fs Demo.world) "app/notes.txt" = false /\
  (exists result,
     Command.collect Demo.world "app/notes.txt" = (Ok [result], []) /\
     ScanResult.file_path result = "app/notes.txt" /\
     ScanResult.findings result =
       flat_map (Scanner.contributed "allow_all" "app/notes.txt")
                (map Scanner.Pattern RULES)) /\
  ~ In "app/notes.txt"
       (map ScanResult.file_path
            (fst (Scanner.scan_directory (Scanner.init None) Demo.world "app"))).
Proof.
  assert (H1 : Path.is_file (fs Demo.world) "app/notes.txt" = true)
    by reflexivity.
  assert (H2 : Path.read_text (fs Demo.world) "app/notes.txt" = Ok "allow_all")
    by reflexivity.
  assert (H3 : Scanner.eligible (fs Demo.world) "app/notes.txt" = false)
    by reflexivity.
  split; [exact H1|]. split; [exact H2|]. split; [exact H3|].
  pose proof (single_file_is_scanned_whatever_its_extension
                Demo.world "app/notes.txt" "allow_all" H1 H2) as [Ha Hb].
  split; [exact Ha|exact (Hb H3 (Scanner.init None) "app")].
Defined.
